(** * TariffTax IQ: the tariff impact calculation engine

    A shallow embedding of the calculation functions of
    [utils/calculations.js] (both copies found in the repository: the plain
    one and the one with input validation) and of the part of
    [components/Calculator.jsx] that derives the pass-through rate and
    composes the functions into one result record.

    Numbers.  A JavaScript number is embedded as a rational or one of the
    three special values of IEEE-754 arithmetic.  Arithmetic on rationals is
    exact: rounding, overflow and the sign of zero are not modelled (a zero
    divisor is taken as [+0], which is what [1 + m / 100] and
    [s + Math.abs(d)] evaluate to when they vanish).  The special values are
    produced and propagated as in JavaScript: [0 / 0] is [NaN], [x / 0] is
    an infinity, [NaN] compares false with everything.

    Binary64.  Where rounding, overflow, underflow or the sign of zero
    decide a property, the same functions are embedded a second time, in
    module [B64], on the binary64 numbers of the language (the primitive
    floats, specified by [FloatAxioms]). *)

From Stdlib Require Import Floats.
From Stdlib Require Import QArith Qabs Qminmax Lqa Lia Bool String List.
Import ListNotations.

Open Scope Q_scope.

(* ================================================================== *)
(** ** JavaScript numbers and values *)

Module JS.

Inductive number : Type :=
| Fin (q : Q)
| PosInf
| NegInf
| NaN.

(** The values a numeric argument or a numeric field of a product record
    can hold here: a number, or nothing ([undefined], [null]).  Strings,
    booleans and objects in numeric positions are outside the model. *)
Inductive value : Type :=
| VUndefined
| VNull
| VNum (n : number).

Definition num (q : Q) : value := VNum (Fin q).

(** [ToNumber] of the language specification, on this universe. *)
Definition ToNumber (v : value) : number :=
  match v with
  | VUndefined => NaN
  | VNull => Fin 0
  | VNum n => n
  end.

(** [typeof v === 'number'] *)
Definition typeof_number (v : value) : bool :=
  match v with
  | VNum _ => true
  | _ => false
  end.

(** [ToBoolean]: [undefined], [null], [0] and [NaN] are falsy. *)
Definition truthy (v : value) : bool :=
  match v with
  | VNum (Fin q) => negb (Qeq_bool q 0)
  | VNum NaN => false
  | VNum _ => true
  | _ => false
  end.

Definition inf_of_sign (positive : bool) : number :=
  if positive then PosInf else NegInf.

Definition Qpositive (q : Q) : bool :=
  match q ?= 0 with Gt => true | _ => false end.

Definition Qnonneg (q : Q) : bool :=
  match q ?= 0 with Lt => false | _ => true end.

Definition nneg (a : number) : number :=
  match a with
  | Fin q => Fin (- q)
  | PosInf => NegInf
  | NegInf => PosInf
  | NaN => NaN
  end.

Definition nadd (a b : number) : number :=
  match a, b with
  | NaN, _ | _, NaN => NaN
  | Fin x, Fin y => Fin (x + y)
  | PosInf, NegInf | NegInf, PosInf => NaN
  | PosInf, _ | _, PosInf => PosInf
  | NegInf, _ | _, NegInf => NegInf
  end.

Definition nsub (a b : number) : number := nadd a (nneg b).

Definition nmul (a b : number) : number :=
  match a, b with
  | NaN, _ | _, NaN => NaN
  | Fin x, Fin y => Fin (x * y)
  | Fin x, PosInf | PosInf, Fin x =>
      if Qeq_bool x 0 then NaN else inf_of_sign (Qpositive x)
  | Fin x, NegInf | NegInf, Fin x =>
      if Qeq_bool x 0 then NaN else inf_of_sign (negb (Qpositive x))
  | PosInf, PosInf | NegInf, NegInf => PosInf
  | PosInf, NegInf | NegInf, PosInf => NegInf
  end.

Definition ndiv (a b : number) : number :=
  match a, b with
  | NaN, _ | _, NaN => NaN
  | Fin x, Fin y =>
      if Qeq_bool y 0
      then (if Qeq_bool x 0 then NaN else inf_of_sign (Qpositive x))
      else Fin (x / y)
  | Fin _, PosInf | Fin _, NegInf => Fin 0
  | PosInf, Fin y => inf_of_sign (Qnonneg y)
  | NegInf, Fin y => inf_of_sign (negb (Qnonneg y))
  | _, _ => NaN
  end.

(** [Math.abs] *)
Definition nabs (a : number) : number :=
  match a with
  | Fin q => Fin (Qabs q)
  | PosInf | NegInf => PosInf
  | NaN => NaN
  end.

(** Ordering of two numbers; [None] when one of them is [NaN]. *)
Definition ncompare (a b : number) : option comparison :=
  match a, b with
  | NaN, _ | _, NaN => None
  | Fin x, Fin y => Some (x ?= y)
  | PosInf, PosInf | NegInf, NegInf => Some Eq
  | PosInf, _ | _, NegInf => Some Gt
  | NegInf, _ | _, PosInf => Some Lt
  end.

Definition nlt (a b : number) : bool :=
  match ncompare a b with Some Lt => true | _ => false end.

Definition ngt (a b : number) : bool :=
  match ncompare a b with Some Gt => true | _ => false end.

Definition nle (a b : number) : bool :=
  match ncompare a b with Some Lt | Some Eq => true | _ => false end.

(** [Math.max] and [Math.min] of two arguments *)
Definition nmax (a b : number) : number :=
  match ncompare a b with
  | None => NaN
  | Some Lt => b
  | Some _ => a
  end.

Definition nmin (a b : number) : number :=
  match ncompare a b with
  | None => NaN
  | Some Gt => b
  | Some _ => a
  end.

(** The operators of the language on values: operands go through
    [ToNumber] ([+] is numeric, there being no strings). *)
Definition js_add (a b : value) : value := VNum (nadd (ToNumber a) (ToNumber b)).
Definition js_sub (a b : value) : value := VNum (nsub (ToNumber a) (ToNumber b)).
Definition js_mul (a b : value) : value := VNum (nmul (ToNumber a) (ToNumber b)).
Definition js_div (a b : value) : value := VNum (ndiv (ToNumber a) (ToNumber b)).
Definition js_lt (a b : value) : bool := nlt (ToNumber a) (ToNumber b).
Definition js_gt (a b : value) : bool := ngt (ToNumber a) (ToNumber b).
Definition js_le (a b : value) : bool := nle (ToNumber a) (ToNumber b).

(** [a || b] *)
Definition js_or (a b : value) : value := if truthy a then a else b.

Definition Math_abs (a : value) : value := VNum (nabs (ToNumber a)).
Definition Math_max (a b : value) : value := VNum (nmax (ToNumber a) (ToNumber b)).
Definition Math_min (a b : value) : value := VNum (nmin (ToNumber a) (ToNumber b)).

(** Equality of numbers and of values up to the representation of a
    rational. *)
Definition number_eq (a b : number) : Prop :=
  match a, b with
  | Fin x, Fin y => x == y
  | PosInf, PosInf | NegInf, NegInf | NaN, NaN => True
  | _, _ => False
  end.

Definition value_eq (a b : value) : Prop :=
  match a, b with
  | VUndefined, VUndefined | VNull, VNull => True
  | VNum x, VNum y => number_eq x y
  | _, _ => False
  end.

(** How a call ends: with a value, or with a thrown error.  [TypeError] is
    what the runtime throws when a property of [undefined] is read; the
    other two are the error kinds the specification names. *)
Inductive error : Type :=
| TypeError
| InvalidInput (field : string)
| InvalidElasticity.

Inductive outcome (A : Type) : Type :=
| Returns (a : A)
| Throws (e : error).

Arguments Returns {A} a.
Arguments Throws {A} e.

End JS.

Import JS.

Infix "=v=" := value_eq (at level 70, no associativity).

(* ================================================================== *)
(** ** Product records *)

(** [product.elasticity]: read with [const { demand, supply } = ...]. *)
Record ElasticityPair : Type := {
  demand : value;
  supply : value
}.

(** The fields of a product the derivation reads.  A product coming from the
    API carries [demand_elasticity] and [supply_elasticity]; a local one
    carries [elasticity].  An absent [elasticity] is [None], an absent
    numeric field is [VUndefined]. *)
Record Product : Type := {
  elasticity : option ElasticityPair;
  demand_elasticity : value;
  supply_elasticity : value
}.

(* ================================================================== *)
(** ** [utils/calculations.js], the plain copy *)

Module Plain.

(** [if (!product) return 0;] then the destructuring of
    [product.elasticity], which throws when that field is absent. *)
Definition calculatePassThrough (product : option Product) : outcome value :=
  match product with
  | None => Returns (num 0)
  | Some p =>
      match elasticity p with
      | None => Throws TypeError
      | Some e =>
          let demand := demand e in
          let supply := supply e in
          Returns (js_mul (js_div supply (js_add supply (Math_abs demand))) (num 100))
      end
  end.

Definition calculateImportCost (retailPrice markupPercent : value) : value :=
  js_div retailPrice (js_add (num 1) (js_div markupPercent (num 100))).

Definition calculateTariffAmount (importCost tariffRate : value) : value :=
  js_mul importCost (js_div tariffRate (num 100)).

Definition calculateTariffPassed (tariffAmount passThroughRate : value) : value :=
  js_mul tariffAmount (js_div passThroughRate (num 100)).

Definition calculateFuturePrice (retailPrice tariffPassed : value) : value :=
  js_add retailPrice tariffPassed.

Definition calculateTariffTaxPercentage (tariffPassed futurePrice : value) : value :=
  if js_gt futurePrice (num 0)
  then js_mul (js_div tariffPassed futurePrice) (num 100)
  else num 0.

Definition calculateInventoryImpact (inventoryMonths priceIncrease : value) : value :=
  js_mul priceIncrease (js_sub (num 1) (js_div inventoryMonths (num 12))).

End Plain.

(* ================================================================== *)
(** ** [utils/calculations.js], the copy that validates its inputs *)

Module Defensive.

Definition calculatePassThrough (product : option Product) : outcome value :=
  match product with
  | None => Returns (num 0)
  | Some p =>
      match elasticity p with
      | None => Returns (num 0)
      | Some e =>
          let demand := demand e in
          let supply := supply e in
          if negb (typeof_number demand) || negb (typeof_number supply)
          then Returns (num 0)
          else Returns (js_mul (js_div supply (js_add supply (Math_abs demand))) (num 100))
      end
  end.

Definition calculateImportCost (retailPrice markupPercent : value) : value :=
  if negb (typeof_number retailPrice) || negb (typeof_number markupPercent)
     || js_le retailPrice (num 0)
  then num 0
  else if js_le markupPercent (num (-100))
  then num 0
  else js_div retailPrice (js_add (num 1) (js_div markupPercent (num 100))).

Definition calculateTariffAmount (importCost tariffRate : value) : value :=
  if negb (typeof_number importCost) || negb (typeof_number tariffRate)
     || js_lt importCost (num 0) || js_lt tariffRate (num 0)
  then num 0
  else js_mul importCost (js_div tariffRate (num 100)).

Definition calculateTariffPassed (tariffAmount passThroughRate : value) : value :=
  if negb (typeof_number tariffAmount) || negb (typeof_number passThroughRate)
     || js_lt tariffAmount (num 0)
  then num 0
  else
    let clampedRate := Math_max (num 0) (Math_min (num 100) passThroughRate) in
    js_mul tariffAmount (js_div clampedRate (num 100)).

Definition calculateFuturePrice (retailPrice tariffPassed : value) : value :=
  if negb (typeof_number retailPrice) || negb (typeof_number tariffPassed)
     || js_lt retailPrice (num 0) || js_lt tariffPassed (num 0)
  then js_or retailPrice (num 0)
  else js_add retailPrice tariffPassed.

Definition calculateTariffTaxPercentage (tariffPassed futurePrice : value) : value :=
  if negb (typeof_number tariffPassed) || negb (typeof_number futurePrice)
     || js_le futurePrice (num 0) || js_lt tariffPassed (num 0)
  then num 0
  else js_mul (js_div tariffPassed futurePrice) (num 100).

Definition calculateInventoryImpact (inventoryMonths priceIncrease : value) : value :=
  if negb (typeof_number inventoryMonths) || negb (typeof_number priceIncrease)
     || js_lt priceIncrease (num 0)
  then js_or priceIncrease (num 0)
  else
    let clampedMonths := Math_max (num 0) (Math_min (num 12) inventoryMonths) in
    js_mul priceIncrease (js_sub (num 1) (js_div clampedMonths (num 12))).

End Defensive.

(* ================================================================== *)
(** ** [components/Calculator.jsx] *)

(** What the component imports from the calculations module. *)
Record Calculations : Type := {
  calculateImportCost : value -> value -> value;
  calculateTariffAmount : value -> value -> value;
  calculateTariffPassed : value -> value -> value;
  calculateFuturePrice : value -> value -> value;
  calculateTariffTaxPercentage : value -> value -> value;
  calculateInventoryImpact : value -> value -> value
}.

Definition plain : Calculations := {|
  calculateImportCost := Plain.calculateImportCost;
  calculateTariffAmount := Plain.calculateTariffAmount;
  calculateTariffPassed := Plain.calculateTariffPassed;
  calculateFuturePrice := Plain.calculateFuturePrice;
  calculateTariffTaxPercentage := Plain.calculateTariffTaxPercentage;
  calculateInventoryImpact := Plain.calculateInventoryImpact
|}.

Definition defensive : Calculations := {|
  calculateImportCost := Defensive.calculateImportCost;
  calculateTariffAmount := Defensive.calculateTariffAmount;
  calculateTariffPassed := Defensive.calculateTariffPassed;
  calculateFuturePrice := Defensive.calculateFuturePrice;
  calculateTariffTaxPercentage := Defensive.calculateTariffTaxPercentage;
  calculateInventoryImpact := Defensive.calculateInventoryImpact
|}.

(** The object the [calculations] memo returns. *)
Record CalculationResult : Type := {
  importCost : value;
  tariffAmount : value;
  tariffPassed : value;
  futurePrice : value;
  tariffTaxPct : value;
  inventoryAdjustedIncrease : value;
  priceIncreasePercent : value
}.

Module Calculator.

(** The [calculatedPassThrough] memo. *)
Definition calculatedPassThrough (selectedProductData : option Product) : value :=
  match selectedProductData with
  | None => num 75
  | Some p =>
      if truthy (demand_elasticity p) && truthy (supply_elasticity p)
      then
        let demand_elasticity := demand_elasticity p in
        let supply_elasticity := supply_elasticity p in
        js_mul (js_div supply_elasticity
                 (js_add supply_elasticity (Math_abs demand_elasticity)))
            (num 100)
      else
        match elasticity p with
        | Some e =>
            let demand := demand e in
            let supply := supply e in
            js_mul (js_div supply (js_add supply (Math_abs demand))) (num 100)
        | None => num 75
        end
  end.

(** The [calculations] memo, over the imported functions [C] and the
    component's state. *)
Definition calculations (C : Calculations)
    (retailPrice retailMarkup tariffRate customPassThrough inventoryBuffer : value)
    : CalculationResult :=
  let importCost := calculateImportCost C retailPrice retailMarkup in
  let tariffAmount := calculateTariffAmount C importCost tariffRate in
  let effectivePassThrough := customPassThrough in
  let tariffPassed := calculateTariffPassed C tariffAmount effectivePassThrough in
  let futurePrice := calculateFuturePrice C retailPrice tariffPassed in
  let tariffTaxPct := calculateTariffTaxPercentage C tariffPassed futurePrice in
  let inventoryAdjustedIncrease :=
    calculateInventoryImpact C inventoryBuffer tariffPassed in
  {| importCost := importCost;
     tariffAmount := tariffAmount;
     tariffPassed := tariffPassed;
     futurePrice := futurePrice;
     tariffTaxPct := tariffTaxPct;
     inventoryAdjustedIncrease := inventoryAdjustedIncrease;
     priceIncreasePercent := js_mul (js_div tariffPassed retailPrice) (num 100) |}.

End Calculator.

(** A call of one of the six arithmetic functions: their bodies hold no
    [throw] and no operation that can raise, so the call ends with the value
    of the body. *)
Definition invoke (f : value -> value -> value) (a b : value) : outcome value :=
  Returns (f a b).

(** The clamp of the specification's wording, on rationals. *)
Definition clamp (x lo hi : Q) : Q := Qmax lo (Qmin hi x).

(** The two shapes of product record met in the sources, and a record with
    no elasticity data at all. *)
Definition local_product (d s : value) : Product :=
  {| elasticity := Some {| demand := d; supply := s |};
     demand_elasticity := VUndefined;
     supply_elasticity := VUndefined |}.

Definition api_product (d s : value) : Product :=
  {| elasticity := None; demand_elasticity := d; supply_elasticity := s |}.

Definition bare_product : Product :=
  {| elasticity := None;
     demand_elasticity := VUndefined;
     supply_elasticity := VUndefined |}.

(** An argument that is a rational or no number at all: what the input
    validation of the second copy is written for. *)
Definition finite_or_absent (v : value) : Prop :=
  match v with
  | VNum (Fin _) | VUndefined | VNull => True
  | VNum _ => False
  end.

(* ================================================================== *)
(** ** Product catalogue and selection *)

(** An entry of a product list: the code under either of its two keys
    ([None] when the key is absent), and the elasticity fields. *)
Record CatalogEntry : Type := {
  hs_code : option string;
  hsCode : option string;
  elasticities : Product
}.

(** [a || b] on codes: an absent or empty string is falsy. *)
Definition code_or (a b : option string) : option string :=
  match a with
  | Some s => if String.eqb s "" then b else a
  | None => b
  end.

(** [hsCode === selectedProduct], the selection being a string. *)
Definition code_is (selectedProduct : string) (c : option string) : bool :=
  match c with
  | Some s => String.eqb s selectedProduct
  | None => false
  end.

(** The first application: [App.jsx] with its own product table, and the
    pass-through rate it hands to its Calculator. *)
Module LegacyApp.

Definition products : list CatalogEntry :=
  [ {| hs_code := None; hsCode := Some "721410"%string;
       elasticities := local_product (num (-3)) (num 2) |};
    {| hs_code := None; hsCode := Some "854430"%string;
       elasticities := local_product (num (-22 # 10)) (num (19 # 10)) |};
    {| hs_code := None; hsCode := Some "010121"%string;
       elasticities := local_product (num (-4)) (num (25 # 10)) |};
    {| hs_code := None; hsCode := Some "842123"%string;
       elasticities := local_product (num (-2)) (num (18 # 10)) |} ].

Definition selectedProductData (selectedProduct : string) : option CatalogEntry :=
  find (fun p => code_is selectedProduct (hsCode p)) products.

Definition passThrough (selectedProduct : string) : outcome value :=
  Plain.calculatePassThrough
    (option_map elasticities (selectedProductData selectedProduct)).

(** In its Calculator:
    [selectedProductData ? passThrough : customPassThrough]. *)
Definition effectivePassThrough (selectedProductData : option CatalogEntry)
    (passThrough customPassThrough : value) : value :=
  match selectedProductData with
  | Some _ => passThrough
  | None => customPassThrough
  end.

End LegacyApp.

(** The product selection of [components/Calculator.jsx].  A list element
    may be [null] ([None]). *)
Module Selection.

(** The lists are arrays here, so the [Array.isArray] tests hold. *)
Definition allProducts (apiProducts products : list (option CatalogEntry))
  : list (option CatalogEntry) :=
  match apiProducts with
  | [] => products
  | _ :: _ => apiProducts
  end.

Definition selectedProductData (allProducts : list (option CatalogEntry))
    (selectedProduct : string) : option CatalogEntry :=
  match
    find (fun p =>
            match p with
            | None => false
            | Some e => code_is selectedProduct (code_or (hs_code e) (hsCode e))
            end) allProducts
  with
  | Some p => p
  | None => None
  end.

(** The condition under which the component shows that the custom rate
    differs from the calculated one:
    [selectedProductData && Math.abs(customPassThrough - calculatedPassThrough) > 0.5]. *)
Definition passThroughDiffers (selectedProductData : option Product)
    (customPassThrough : value) : bool :=
  match selectedProductData with
  | None => false
  | Some _ =>
      js_gt (Math_abs (js_sub customPassThrough
                              (Calculator.calculatedPassThrough selectedProductData)))
            (num (1 # 2))
  end.

End Selection.

(** The result record written out on rationals, for a pass-through rate [c]
    and a buffer of [k] months. *)
Definition result_at (r m t c k : Q) : CalculationResult :=
  let ic := r / (1 + m / 100) in
  let ta := ic * (t / 100) in
  let tp := ta * (c / 100) in
  {| importCost := num ic;
     tariffAmount := num ta;
     tariffPassed := num tp;
     futurePrice := num (r + tp);
     tariffTaxPct := num (tp / (r + tp) * 100);
     inventoryAdjustedIncrease := num (tp * (1 - k / 12));
     priceIncreasePercent := num (tp / r * 100) |}.

(** Two result records holding equal values. *)
Definition result_eq (a b : CalculationResult) : Prop :=
  importCost a =v= importCost b
  /\ tariffAmount a =v= tariffAmount b
  /\ tariffPassed a =v= tariffPassed b
  /\ futurePrice a =v= futurePrice b
  /\ tariffTaxPct a =v= tariffTaxPct b
  /\ inventoryAdjustedIncrease a =v= inventoryAdjustedIncrease b
  /\ priceIncreasePercent a =v= priceIncreasePercent b.

(** A value that is a number other than [NaN]. *)
Definition is_a_number (v : value) : Prop :=
  match v with
  | VNum NaN => False
  | VNum _ => True
  | _ => False
  end.


(* ================================================================== *)
(** ** The same code on binary64 numbers

    The embedding above computes with exact rationals.  This one computes
    with the numbers the language has, IEEE-754 binary64 with rounding to
    nearest, overflow to an infinity, underflow to zero and signed zeros:
    it is what decides how the code behaves where those matter. *)

Module B64.

Inductive value : Type :=
| VUndefined
| VNull
| VNum (x : float).

Definition num (x : float) : value := VNum x.

Definition ToNumber (v : value) : float :=
  match v with
  | VUndefined => PrimFloat.nan
  | VNull => 0%float
  | VNum x => x
  end.

Definition typeof_number (v : value) : bool :=
  match v with
  | VNum _ => true
  | _ => false
  end.

(** [ToBoolean]: [undefined], [null], [+0], [-0] and [NaN] are falsy. *)
Definition truthy (v : value) : bool :=
  match v with
  | VNum x => negb (PrimFloat.is_zero x || PrimFloat.is_nan x)
  | _ => false
  end.

Definition is_neg_zero (x : float) : bool :=
  PrimFloat.is_zero x && PrimFloat.get_sign x.

(** [Math.max] and [Math.min] of two arguments: [NaN] if one of them is,
    and [-0] below [+0]. *)
Definition fmax (a b : float) : float :=
  if PrimFloat.is_nan a || PrimFloat.is_nan b then PrimFloat.nan
  else if (a <? b)%float then b
  else if (b <? a)%float then a
  else if is_neg_zero a then b else a.

Definition fmin (a b : float) : float :=
  if PrimFloat.is_nan a || PrimFloat.is_nan b then PrimFloat.nan
  else if (a <? b)%float then a
  else if (b <? a)%float then b
  else if is_neg_zero a then a else b.

Definition js_add (a b : value) : value := VNum (ToNumber a + ToNumber b)%float.
Definition js_sub (a b : value) : value := VNum (ToNumber a - ToNumber b)%float.
Definition js_mul (a b : value) : value := VNum (ToNumber a * ToNumber b)%float.
Definition js_div (a b : value) : value := VNum (ToNumber a / ToNumber b)%float.
Definition js_lt (a b : value) : bool := (ToNumber a <? ToNumber b)%float.
Definition js_gt (a b : value) : bool := (ToNumber b <? ToNumber a)%float.
Definition js_le (a b : value) : bool := (ToNumber a <=? ToNumber b)%float.
Definition js_or (a b : value) : value := if truthy a then a else b.
Definition Math_abs (a : value) : value := VNum (PrimFloat.abs (ToNumber a)).
Definition Math_max (a b : value) : value := VNum (fmax (ToNumber a) (ToNumber b)).
Definition Math_min (a b : value) : value := VNum (fmin (ToNumber a) (ToNumber b)).

Record ElasticityPair : Type := {
  demand : value;
  supply : value
}.

Record Product : Type := {
  elasticity : option ElasticityPair
}.

Module Plain.

Definition calculatePassThrough (product : option Product) : outcome value :=
  match product with
  | None => Returns (num 0)
  | Some p =>
      match elasticity p with
      | None => Throws TypeError
      | Some e =>
          let demand := demand e in
          let supply := supply e in
          Returns (js_mul (js_div supply (js_add supply (Math_abs demand))) (num 100))
      end
  end.

Definition calculateImportCost (retailPrice markupPercent : value) : value :=
  js_div retailPrice (js_add (num 1) (js_div markupPercent (num 100))).

Definition calculateTariffAmount (importCost tariffRate : value) : value :=
  js_mul importCost (js_div tariffRate (num 100)).

Definition calculateTariffPassed (tariffAmount passThroughRate : value) : value :=
  js_mul tariffAmount (js_div passThroughRate (num 100)).

Definition calculateFuturePrice (retailPrice tariffPassed : value) : value :=
  js_add retailPrice tariffPassed.

Definition calculateTariffTaxPercentage (tariffPassed futurePrice : value) : value :=
  if js_gt futurePrice (num 0)
  then js_mul (js_div tariffPassed futurePrice) (num 100)
  else num 0.

Definition calculateInventoryImpact (inventoryMonths priceIncrease : value) : value :=
  js_mul priceIncrease (js_sub (num 1) (js_div inventoryMonths (num 12))).

End Plain.

Module Defensive.

Definition calculatePassThrough (product : option Product) : outcome value :=
  match product with
  | None => Returns (num 0)
  | Some p =>
      match elasticity p with
      | None => Returns (num 0)
      | Some e =>
          let demand := demand e in
          let supply := supply e in
          if negb (typeof_number demand) || negb (typeof_number supply)
          then Returns (num 0)
          else Returns (js_mul (js_div supply (js_add supply (Math_abs demand))) (num 100))
      end
  end.

Definition calculateImportCost (retailPrice markupPercent : value) : value :=
  if negb (typeof_number retailPrice) || negb (typeof_number markupPercent)
     || js_le retailPrice (num 0)
  then num 0
  else if js_le markupPercent (num (-100))
  then num 0
  else js_div retailPrice (js_add (num 1) (js_div markupPercent (num 100))).

Definition calculateTariffAmount (importCost tariffRate : value) : value :=
  if negb (typeof_number importCost) || negb (typeof_number tariffRate)
     || js_lt importCost (num 0) || js_lt tariffRate (num 0)
  then num 0
  else js_mul importCost (js_div tariffRate (num 100)).

Definition calculateTariffPassed (tariffAmount passThroughRate : value) : value :=
  if negb (typeof_number tariffAmount) || negb (typeof_number passThroughRate)
     || js_lt tariffAmount (num 0)
  then num 0
  else
    let clampedRate := Math_max (num 0) (Math_min (num 100) passThroughRate) in
    js_mul tariffAmount (js_div clampedRate (num 100)).

Definition calculateFuturePrice (retailPrice tariffPassed : value) : value :=
  if negb (typeof_number retailPrice) || negb (typeof_number tariffPassed)
     || js_lt retailPrice (num 0) || js_lt tariffPassed (num 0)
  then js_or retailPrice (num 0)
  else js_add retailPrice tariffPassed.

Definition calculateTariffTaxPercentage (tariffPassed futurePrice : value) : value :=
  if negb (typeof_number tariffPassed) || negb (typeof_number futurePrice)
     || js_le futurePrice (num 0) || js_lt tariffPassed (num 0)
  then num 0
  else js_mul (js_div tariffPassed futurePrice) (num 100).

Definition calculateInventoryImpact (inventoryMonths priceIncrease : value) : value :=
  if negb (typeof_number inventoryMonths) || negb (typeof_number priceIncrease)
     || js_lt priceIncrease (num 0)
  then js_or priceIncrease (num 0)
  else
    let clampedMonths := Math_max (num 0) (Math_min (num 12) inventoryMonths) in
    js_mul priceIncrease (js_sub (num 1) (js_div clampedMonths (num 12))).

End Defensive.

Record Calculations : Type := {
  calculateImportCost : value -> value -> value;
  calculateTariffAmount : value -> value -> value;
  calculateTariffPassed : value -> value -> value;
  calculateFuturePrice : value -> value -> value;
  calculateTariffTaxPercentage : value -> value -> value;
  calculateInventoryImpact : value -> value -> value
}.

Definition plain : Calculations := {|
  calculateImportCost := Plain.calculateImportCost;
  calculateTariffAmount := Plain.calculateTariffAmount;
  calculateTariffPassed := Plain.calculateTariffPassed;
  calculateFuturePrice := Plain.calculateFuturePrice;
  calculateTariffTaxPercentage := Plain.calculateTariffTaxPercentage;
  calculateInventoryImpact := Plain.calculateInventoryImpact
|}.

Definition defensive : Calculations := {|
  calculateImportCost := Defensive.calculateImportCost;
  calculateTariffAmount := Defensive.calculateTariffAmount;
  calculateTariffPassed := Defensive.calculateTariffPassed;
  calculateFuturePrice := Defensive.calculateFuturePrice;
  calculateTariffTaxPercentage := Defensive.calculateTariffTaxPercentage;
  calculateInventoryImpact := Defensive.calculateInventoryImpact
|}.

Record CalculationResult : Type := {
  importCost : value;
  tariffAmount : value;
  tariffPassed : value;
  futurePrice : value;
  tariffTaxPct : value;
  inventoryAdjustedIncrease : value;
  priceIncreasePercent : value
}.

(** The [calculations] memo of the Calculator component. *)
Definition calculations (C : Calculations)
    (retailPrice retailMarkup tariffRate customPassThrough inventoryBuffer : value)
    : CalculationResult :=
  let importCost := calculateImportCost C retailPrice retailMarkup in
  let tariffAmount := calculateTariffAmount C importCost tariffRate in
  let effectivePassThrough := customPassThrough in
  let tariffPassed := calculateTariffPassed C tariffAmount effectivePassThrough in
  let futurePrice := calculateFuturePrice C retailPrice tariffPassed in
  let tariffTaxPct := calculateTariffTaxPercentage C tariffPassed futurePrice in
  let inventoryAdjustedIncrease :=
    calculateInventoryImpact C inventoryBuffer tariffPassed in
  {| importCost := importCost;
     tariffAmount := tariffAmount;
     tariffPassed := tariffPassed;
     futurePrice := futurePrice;
     tariffTaxPct := tariffTaxPct;
     inventoryAdjustedIncrease := inventoryAdjustedIncrease;
     priceIncreasePercent := js_mul (js_div tariffPassed retailPrice) (num 100) |}.

(** A value that is [+0] or [-0]; a value that is a number other than
    [NaN] and the infinities. *)
Definition is_zero (v : value) : bool :=
  match v with
  | VNum x => PrimFloat.is_zero x
  | _ => false
  end.

Definition is_finite (v : value) : bool :=
  match v with
  | VNum x => PrimFloat.is_finite x
  | _ => false
  end.

Definition local_product (d s : float) : Product :=
  {| elasticity := Some {| demand := num d; supply := num s |} |}.

End B64.

(** Classes of binary64 numbers, read off their decoded form. *)
Definition sf_zero (a : spec_float) : Prop :=
  match a with S754_zero _ => True | _ => False end.

Definition sf_finite (a : spec_float) : Prop :=
  match a with S754_zero _ | S754_finite _ _ _ => True | _ => False end.

Definition sf_positive (a : spec_float) : Prop :=
  match a with
  | S754_finite false _ _ | S754_infinity false => True
  | _ => False
  end.

(* ================================================================== *)
(** * Properties *)

(** ** The operators on rationals *)

Lemma Qeq_bool_false (x y : Q) : ~ x == y -> Qeq_bool x y = false.
Proof.
  intro H. destruct (Qeq_bool x y) eqn:E; [|reflexivity].
  apply Qeq_bool_iff in E. contradiction.
Qed.

Section FiniteArithmetic.

Variables x y : Q.

Lemma js_add_num : js_add (num x) (num y) = num (x + y).
Proof. reflexivity. Qed.

Lemma js_sub_num : js_sub (num x) (num y) = num (x - y).
Proof. reflexivity. Qed.

Lemma js_mul_num : js_mul (num x) (num y) = num (x * y).
Proof. reflexivity. Qed.

Lemma js_div_num : ~ y == 0 -> js_div (num x) (num y) = num (x / y).
Proof.
  intro H. unfold js_div, num; simpl. now rewrite (Qeq_bool_false y 0 H).
Qed.

Lemma Math_abs_num : Math_abs (num x) = num (Qabs x).
Proof. reflexivity. Qed.

Lemma js_ltP : reflect (x < y) (js_lt (num x) (num y)).
Proof.
  unfold js_lt, nlt, num; simpl.
  destruct (CompareSpec2Type (Qcompare_spec x y)); constructor; lra.
Qed.

Lemma js_leP : reflect (x <= y) (js_le (num x) (num y)).
Proof.
  unfold js_le, nle, num; simpl.
  destruct (CompareSpec2Type (Qcompare_spec x y)); constructor; lra.
Qed.

Lemma js_gtP : reflect (y < x) (js_gt (num x) (num y)).
Proof.
  unfold js_gt, ngt, num; simpl.
  destruct (CompareSpec2Type (Qcompare_spec x y)); constructor; lra.
Qed.

Lemma Math_max_num : Math_max (num x) (num y) =v= num (Qmax x y).
Proof.
  unfold Math_max, nmax, num; simpl.
  destruct (Qcompare_spec x y) as [H|H|H]; simpl.
  - rewrite Q.max_l; lra.
  - rewrite Q.max_r; lra.
  - rewrite Q.max_l; lra.
Qed.

Lemma Math_min_num : Math_min (num x) (num y) =v= num (Qmin x y).
Proof.
  unfold Math_min, nmin, num; simpl.
  destruct (Qcompare_spec x y) as [H|H|H]; simpl.
  - rewrite Q.min_l; lra.
  - rewrite Q.min_l; lra.
  - rewrite Q.min_r; lra.
Qed.

End FiniteArithmetic.

(** [Math.max(lo, Math.min(hi, x))] is a rational, the clamp of [x]. *)
Lemma clamp_num (lo hi x : Q) :
  exists c, Math_max (num lo) (Math_min (num hi) (num x)) = num c
            /\ c == clamp x lo hi.
Proof.
  unfold Math_max, Math_min, nmax, nmin, num, clamp; simpl.
  destruct (Qcompare_spec hi x) as [H|H|H]; simpl.
  - destruct (Qcompare_spec lo hi) as [G|G|G]; eexists; split; try reflexivity.
    + rewrite Q.min_l, Q.max_l; lra.
    + rewrite Q.min_l, Q.max_r; lra.
    + rewrite Q.min_l, Q.max_l; lra.
  - destruct (Qcompare_spec lo hi) as [G|G|G]; eexists; split; try reflexivity.
    + rewrite Q.min_l, Q.max_l; lra.
    + rewrite Q.min_l, Q.max_r; lra.
    + rewrite Q.min_l, Q.max_l; lra.
  - destruct (Qcompare_spec lo x) as [G|G|G]; eexists; split; try reflexivity.
    + rewrite Q.min_r, Q.max_l; lra.
    + rewrite Q.min_r, Q.max_r; lra.
    + rewrite Q.min_r, Q.max_l; lra.
Qed.

#[export] Instance number_eq_equiv : Equivalence number_eq.
Proof.
  split.
  - intros [q| | |]; simpl; auto. reflexivity.
  - intros [p| | |] [q| | |]; simpl; auto. intro H; now symmetry.
  - intros [p| | |] [q| | |] [r| | |]; simpl; auto; try contradiction.
    intros H G; now rewrite H.
Qed.

#[export] Instance value_eq_equiv : Equivalence value_eq.
Proof.
  split.
  - intros [| |n]; simpl; auto. reflexivity.
  - intros [| |n] [| |m]; simpl; auto. intro H; now symmetry.
  - intros [| |n] [| |m] [| |k]; simpl; auto; try contradiction.
    intros H G; now rewrite H.
Qed.

Lemma num_eq (x y : Q) : num x =v= num y <-> x == y.
Proof. reflexivity. Qed.

(** The divisor of the markup inversion does not vanish above -100. *)
Lemma markup_divisor_nonzero (m : Q) : -100 < m -> ~ 1 + m / 100 == 0.
Proof.
  intros H E.
  assert (G : m == (1 + m / 100) * 100 - 100) by field.
  rewrite E in G. lra.
Qed.

Lemma markup_divisor_pos (m : Q) : -100 < m -> 0 < 1 + m / 100.
Proof.
  intro H.
  assert (G : m == (1 + m / 100) * 100 - 100) by field.
  lra.
Qed.

Lemma typeof_number_num (q : Q) : typeof_number (num q) = true.
Proof. reflexivity. Qed.

(** Case analysis on the comparisons of rationals left in the goal. *)
Ltac js_case :=
  match goal with
  | |- context [js_lt (num ?a) (num ?b)] => destruct (js_ltP a b)
  | |- context [js_le (num ?a) (num ?b)] => destruct (js_leP a b)
  | |- context [js_gt (num ?a) (num ?b)] => destruct (js_gtP a b)
  end.

Ltac js_guards :=
  rewrite ?typeof_number_num; cbn [negb orb andb];
  repeat (js_case; cbn [negb orb andb]).

(** ** Import cost *)

Lemma plain_importCost_in_range (r m : Q) :
  -100 < m ->
  Plain.calculateImportCost (num r) (num m) = num (r / (1 + m / 100)).
Proof.
  intro Hm. unfold Plain.calculateImportCost.
  rewrite (js_div_num m 100) by lra.
  rewrite js_add_num.
  now rewrite js_div_num by (apply markup_divisor_nonzero; exact Hm).
Qed.

Lemma defensive_importCost_in_range (r m : Q) :
  0 < r -> -100 < m ->
  Defensive.calculateImportCost (num r) (num m) = num (r / (1 + m / 100)).
Proof.
  intros Hr Hm. unfold Defensive.calculateImportCost.
  js_guards; try lra.
  now apply plain_importCost_in_range.
Qed.

Lemma defensive_importCost_nonpositive_price (r m : Q) :
  r <= 0 -> Defensive.calculateImportCost (num r) (num m) = num 0.
Proof.
  intro Hr. unfold Defensive.calculateImportCost.
  js_guards; try lra; reflexivity.
Qed.

Lemma defensive_importCost_degenerate_markup (r m : Q) :
  m <= -100 -> Defensive.calculateImportCost (num r) (num m) = num 0.
Proof.
  intro Hm. unfold Defensive.calculateImportCost.
  js_guards; try lra; reflexivity.
Qed.

(** C2 (as the code has it).  Within [retailPrice > 0] and
    [markupPercent > -100] both copies of [calculateImportCost] return
    [retailPrice / (1 + markupPercent / 100)].  Outside that range the
    validating copy returns the plain number 0, for a non-positive price as
    for a markup at or below -100, and the call ends normally: no error is
    raised, whatever the arguments. *)
Theorem importCost_contract (r m : Q) :
  (0 < r -> -100 < m ->
     Plain.calculateImportCost (num r) (num m) = num (r / (1 + m / 100)) /\
     Defensive.calculateImportCost (num r) (num m) = num (r / (1 + m / 100)))
  /\ (r <= 0 ->
        invoke Defensive.calculateImportCost (num r) (num m) = Returns (num 0))
  /\ (m <= -100 ->
        invoke Defensive.calculateImportCost (num r) (num m) = Returns (num 0))
  /\ (forall (a b : value) (e : error),
        invoke Plain.calculateImportCost a b <> Throws e /\
        invoke Defensive.calculateImportCost a b <> Throws e).
Proof.
  repeat split.
  - now apply plain_importCost_in_range.
  - now apply defensive_importCost_in_range.
  - intro Hr. unfold invoke. now rewrite defensive_importCost_nonpositive_price.
  - intro Hm. unfold invoke. now rewrite defensive_importCost_degenerate_markup.
  - discriminate.
  - discriminate.
Qed.

Lemma importCost_contract_witness :
  (Plain.calculateImportCost (num 100) (num 50) = num (100 / (1 + 50 / 100)) /\
   Defensive.calculateImportCost (num 100) (num 50) = num (100 / (1 + 50 / 100)))
  /\ invoke Defensive.calculateImportCost (num 0) (num 50) = Returns (num 0)
  /\ invoke Defensive.calculateImportCost (num 100) (num (-100)) = Returns (num 0).
Proof.
  split; [|split].
  - destruct (importCost_contract 100 50) as (H & _). apply H; reflexivity.
  - destruct (importCost_contract 0 50) as (_ & H & _). apply H.
    unfold Qle; simpl; lia.
  - destruct (importCost_contract 100 (-100)) as (_ & _ & H & _). apply H.
    unfold Qle; simpl; lia.
Defined.

(** At a markup of exactly -100 the validating copy answers 0 and the call
    ends normally; so it does for a price of 0.  No [InvalidInput] comes
    out. *)
Lemma importCost_silent_zero :
  invoke Defensive.calculateImportCost (num 100) (num (-100)) = Returns (num 0)
  /\ invoke Defensive.calculateImportCost (num 0) (num 50) = Returns (num 0)
  /\ ~ (exists field,
          invoke Defensive.calculateImportCost (num 100) (num (-100))
          = Throws (InvalidInput field)).
Proof.
  split; [reflexivity | split; [reflexivity |]].
  intros [field H]. discriminate H.
Qed.

(** The same call on the plain copy divides by zero. *)
Example plain_importCost_at_minus_100 :
  Plain.calculateImportCost (num 100) (num (-100)) = VNum PosInf.
Proof. reflexivity. Qed.

(** C5.  Markup inversion round trip: for [retailPrice > 0] and
    [markupPercent > -100], the import cost multiplied back by
    [1 + markupPercent / 100] is the retail price, exactly, in both copies
    of [calculateImportCost]. *)
Theorem importCost_markup_roundtrip (r m : Q) :
  0 < r -> -100 < m ->
  js_mul (Plain.calculateImportCost (num r) (num m))
         (js_add (num 1) (js_div (num m) (num 100))) =v= num r
  /\ js_mul (Defensive.calculateImportCost (num r) (num m))
            (js_add (num 1) (js_div (num m) (num 100))) =v= num r.
Proof.
  intros Hr Hm.
  rewrite defensive_importCost_in_range, plain_importCost_in_range by assumption.
  rewrite (js_div_num m 100) by lra.
  rewrite js_add_num, js_mul_num.
  assert (E : r / (1 + m / 100) * (1 + m / 100) == r).
  { field. lra. }
  split; apply num_eq; exact E.
Qed.

Lemma importCost_markup_roundtrip_witness :
  js_mul (Plain.calculateImportCost (num 100) (num 50))
         (js_add (num 1) (js_div (num 50) (num 100))) =v= num 100
  /\ js_mul (Defensive.calculateImportCost (num 100) (num 50))
            (js_add (num 1) (js_div (num 50) (num 100))) =v= num 100.
Proof. apply (importCost_markup_roundtrip 100 50); reflexivity. Defined.

(** ** Pass-through derivation *)

Lemma passThrough_formula (d s : Q) :
  ~ s + Qabs d == 0 ->
  js_mul (js_div (num s) (js_add (num s) (Math_abs (num d)))) (num 100)
  = num (s / (s + Qabs d) * 100).
Proof.
  intro H. rewrite Math_abs_num, js_add_num.
  now rewrite js_div_num by exact H.
Qed.

Section PassThroughOfPair.

Variable p : Product.
Variables d s : Q.
Hypothesis pair : elasticity p = Some {| demand := num d; supply := num s |}.

Lemma plain_passThrough_pair :
  Plain.calculatePassThrough (Some p)
  = Returns (js_mul (js_div (num s) (js_add (num s) (Math_abs (num d)))) (num 100)).
Proof. unfold Plain.calculatePassThrough. now rewrite pair. Qed.

Lemma defensive_passThrough_pair :
  Defensive.calculatePassThrough (Some p)
  = Returns (js_mul (js_div (num s) (js_add (num s) (Math_abs (num d)))) (num 100)).
Proof. unfold Defensive.calculatePassThrough. now rewrite pair. Qed.

Lemma calculatedPassThrough_pair :
  truthy (demand_elasticity p) && truthy (supply_elasticity p) = false ->
  Calculator.calculatedPassThrough (Some p)
  = js_mul (js_div (num s) (js_add (num s) (Math_abs (num d)))) (num 100).
Proof.
  intro api. unfold Calculator.calculatedPassThrough. now rewrite api, pair.
Qed.

End PassThroughOfPair.

Lemma truthy_num (q : Q) : ~ q == 0 -> truthy (num q) = true.
Proof. intro H. unfold truthy, num. now rewrite Qeq_bool_false. Qed.

Lemma calculatedPassThrough_api (q : Product) (d s : Q) :
  demand_elasticity q = num d -> supply_elasticity q = num s ->
  ~ d == 0 -> ~ s == 0 -> ~ s + Qabs d == 0 ->
  Calculator.calculatedPassThrough (Some q) = num (s / (s + Qabs d) * 100).
Proof.
  intros Hd Hs Nd Ns N. unfold Calculator.calculatedPassThrough.
  rewrite Hd, Hs, !truthy_num by assumption. cbn [andb].
  now apply passThrough_formula.
Qed.

Lemma calculatedPassThrough_no_data (q : Product) :
  elasticity q = None ->
  truthy (demand_elasticity q) && truthy (supply_elasticity q) = false ->
  Calculator.calculatedPassThrough (Some q) = num 75.
Proof.
  intros He api. unfold Calculator.calculatedPassThrough. now rewrite api, He.
Qed.

(** On a product with no [elasticity] field the plain copy throws where the
    validating copy answers 0. *)
Lemma plain_passThrough_without_elasticity (q : Product) :
  elasticity q = None -> Plain.calculatePassThrough (Some q) = Throws TypeError.
Proof. intro He. unfold Plain.calculatePassThrough. now rewrite He. Qed.

Lemma defensive_passThrough_without_elasticity (q : Product) :
  elasticity q = None -> Defensive.calculatePassThrough (Some q) = Returns (num 0).
Proof. intro He. unfold Defensive.calculatePassThrough. now rewrite He. Qed.

(** C1 (as the code has it).  The [calculatedPassThrough] memo of the
    Calculator component answers the fixed default 75 when no product is
    selected and when the selected product carries no elasticity data; on a
    product with an elasticity pair (either shape) it answers
    [supply / (supply + |demand|) * 100].  [calculatePassThrough] of the
    calculations module answers that same formula on an elasticity pair, but
    0, not 75, when there is no product (and, in the validating copy, when
    the product has no elasticity pair). *)
Theorem passThrough_derivation (p : Product) (d s : Q) :
  ~ s + Qabs d == 0 ->
  elasticity p = Some {| demand := num d; supply := num s |} ->
  truthy (demand_elasticity p) && truthy (supply_elasticity p) = false ->
  let rate := num (s / (s + Qabs d) * 100) in
  Calculator.calculatedPassThrough None = num 75
  /\ (forall q, elasticity q = None ->
        truthy (demand_elasticity q) && truthy (supply_elasticity q) = false ->
        Calculator.calculatedPassThrough (Some q) = num 75)
  /\ Calculator.calculatedPassThrough (Some p) = rate
  /\ (forall q, demand_elasticity q = num d -> supply_elasticity q = num s ->
        ~ d == 0 -> ~ s == 0 ->
        Calculator.calculatedPassThrough (Some q) = rate)
  /\ Plain.calculatePassThrough (Some p) = Returns rate
  /\ Defensive.calculatePassThrough (Some p) = Returns rate
  /\ Plain.calculatePassThrough None = Returns (num 0)
  /\ Defensive.calculatePassThrough None = Returns (num 0)
  /\ (forall q, elasticity q = None ->
        Defensive.calculatePassThrough (Some q) = Returns (num 0)).
Proof.
  intros N pair api rate. subst rate.
  repeat match goal with |- _ /\ _ => split end.
  - reflexivity.
  - exact calculatedPassThrough_no_data.
  - rewrite (calculatedPassThrough_pair p d s) by assumption.
    now apply passThrough_formula.
  - intros q Hd Hs Nd Ns. now apply calculatedPassThrough_api.
  - rewrite (plain_passThrough_pair p d s) by assumption.
    now rewrite passThrough_formula.
  - rewrite (defensive_passThrough_pair p d s) by assumption.
    now rewrite passThrough_formula.
  - reflexivity.
  - reflexivity.
  - exact defensive_passThrough_without_elasticity.
Qed.

Lemma passThrough_derivation_witness :
  let p := local_product (num (-2)) (num (3 # 2)) in
  let rate := num ((3 # 2) / ((3 # 2) + Qabs (-2)) * 100) in
  Calculator.calculatedPassThrough None = num 75
  /\ Calculator.calculatedPassThrough (Some bare_product) = num 75
  /\ Calculator.calculatedPassThrough (Some p) = rate
  /\ Plain.calculatePassThrough (Some p) = Returns rate
  /\ Defensive.calculatePassThrough (Some p) = Returns rate
  /\ Plain.calculatePassThrough None = Returns (num 0)
  /\ Defensive.calculatePassThrough None = Returns (num 0).
Proof.
  intros p rate.
  assert (N : ~ (3 # 2) + Qabs (-2) == 0) by (vm_compute; discriminate).
  destruct (passThrough_derivation p (-2) (3 # 2) N eq_refl eq_refl)
    as (H1 & H2 & H3 & _ & H5 & H6 & H7 & H8 & _).
  exact (conj H1 (conj (H2 bare_product eq_refl eq_refl)
           (conj H3 (conj H5 (conj H6 (conj H7 H8)))))).
Defined.

(** With no product, [calculatePassThrough] answers 0 where the default of
    75 is claimed. *)
Lemma passThrough_no_product_is_zero :
  Plain.calculatePassThrough None = Returns (num 0)
  /\ Defensive.calculatePassThrough None = Returns (num 0)
  /\ Defensive.calculatePassThrough (Some bare_product) = Returns (num 0)
  /\ ~ num 0 =v= num 75.
Proof.
  split; [reflexivity | split; [reflexivity | split; [reflexivity |]]].
  intro H. apply num_eq in H. discriminate H.
Qed.

(** C3 (as the code has it).  On a product that carries an elasticity pair
    of numbers the derivation never fails: both copies of
    [calculatePassThrough] end normally with a value, there being no
    [InvalidElasticity] failure; whenever [supply + |demand|] is not zero
    that value is the rational [supply / (supply + |demand|) * 100]. *)
Theorem passThrough_always_returns (p : Product) (d s : Q) :
  elasticity p = Some {| demand := num d; supply := num s |} ->
  (exists v, Plain.calculatePassThrough (Some p) = Returns v
             /\ (~ s + Qabs d == 0 -> v = num (s / (s + Qabs d) * 100)))
  /\ (exists v, Defensive.calculatePassThrough (Some p) = Returns v
                /\ (~ s + Qabs d == 0 -> v = num (s / (s + Qabs d) * 100))).
Proof.
  intro pair. split; eexists; split.
  - exact (plain_passThrough_pair p d s pair).
  - exact (passThrough_formula d s).
  - exact (defensive_passThrough_pair p d s pair).
  - exact (passThrough_formula d s).
Qed.

Lemma passThrough_always_returns_witness :
  let p := local_product (num 0) (num 0) in
  (exists v, Plain.calculatePassThrough (Some p) = Returns v
             /\ (~ 0 + Qabs 0 == 0 -> v = num (0 / (0 + Qabs 0) * 100)))
  /\ (exists v, Defensive.calculatePassThrough (Some p) = Returns v
                /\ (~ 0 + Qabs 0 == 0 -> v = num (0 / (0 + Qabs 0) * 100))).
Proof.
  intro p. apply (passThrough_always_returns p 0 0). reflexivity.
Defined.

(** With both elasticities zero the derivation ends normally, and what it
    returns is [NaN]. *)
Lemma passThrough_zero_pair_is_NaN :
  let p := local_product (num 0) (num 0) in
  Plain.calculatePassThrough (Some p) = Returns (VNum NaN)
  /\ Defensive.calculatePassThrough (Some p) = Returns (VNum NaN)
  /\ Calculator.calculatedPassThrough (Some p) = VNum NaN
  /\ Plain.calculatePassThrough (Some p) <> Throws InvalidElasticity
  /\ Defensive.calculatePassThrough (Some p) <> Throws InvalidElasticity.
Proof.
  repeat split; discriminate.
Qed.




(** ** Closed forms of the arithmetic functions on rationals *)

Lemma clamp_in_range (x lo hi : Q) : lo <= x <= hi -> clamp x lo hi == x.
Proof.
  intros [Hlo Hhi]. unfold clamp.
  rewrite (Q.min_r hi x) by exact Hhi. now rewrite Q.max_r.
Qed.

Lemma clamp_bounds (x lo hi : Q) : lo <= hi -> lo <= clamp x lo hi <= hi.
Proof.
  intro H. unfold clamp. split.
  - apply Q.le_max_l.
  - apply Q.max_lub; [exact H | apply Q.le_min_l].
Qed.

Lemma plain_tariffAmount (ic t : Q) :
  Plain.calculateTariffAmount (num ic) (num t) = num (ic * (t / 100)).
Proof.
  unfold Plain.calculateTariffAmount. now rewrite js_div_num by lra.
Qed.

Lemma plain_tariffPassed (ta pt : Q) :
  Plain.calculateTariffPassed (num ta) (num pt) = num (ta * (pt / 100)).
Proof.
  unfold Plain.calculateTariffPassed. now rewrite js_div_num by lra.
Qed.

Lemma plain_futurePrice (r tp : Q) :
  Plain.calculateFuturePrice (num r) (num tp) = num (r + tp).
Proof. reflexivity. Qed.

Lemma plain_tariffTaxPercentage_pos (tp fp : Q) :
  0 < fp ->
  Plain.calculateTariffTaxPercentage (num tp) (num fp) = num (tp / fp * 100).
Proof.
  intro H. unfold Plain.calculateTariffTaxPercentage.
  js_guards; try lra. now rewrite js_div_num by lra.
Qed.

Lemma plain_tariffTaxPercentage_nonpos (tp fp : Q) :
  fp <= 0 -> Plain.calculateTariffTaxPercentage (num tp) (num fp) = num 0.
Proof.
  intro H. unfold Plain.calculateTariffTaxPercentage.
  js_guards; try lra. reflexivity.
Qed.

Lemma plain_inventoryImpact (months pi : Q) :
  Plain.calculateInventoryImpact (num months) (num pi)
  = num (pi * (1 - months / 12)).
Proof.
  unfold Plain.calculateInventoryImpact. now rewrite js_div_num by lra.
Qed.

Lemma defensive_tariffAmount (ic t : Q) :
  0 <= ic -> 0 <= t ->
  Defensive.calculateTariffAmount (num ic) (num t) = num (ic * (t / 100)).
Proof.
  intros Hic Ht. unfold Defensive.calculateTariffAmount.
  js_guards; try lra. now rewrite js_div_num by lra.
Qed.

Lemma defensive_tariffPassed (ta pt : Q) :
  0 <= ta ->
  exists c, c == clamp pt 0 100
            /\ Defensive.calculateTariffPassed (num ta) (num pt)
               = num (ta * (c / 100)).
Proof.
  intro Hta. destruct (clamp_num 0 100 pt) as (c & Hc & Ec).
  exists c. split; [exact Ec|].
  unfold Defensive.calculateTariffPassed.
  js_guards; try lra. cbv zeta. rewrite Hc. now rewrite js_div_num by lra.
Qed.

Lemma defensive_futurePrice (r tp : Q) :
  0 <= r -> 0 <= tp ->
  Defensive.calculateFuturePrice (num r) (num tp) = num (r + tp).
Proof.
  intros Hr Htp. unfold Defensive.calculateFuturePrice.
  js_guards; try lra. reflexivity.
Qed.

Lemma defensive_tariffTaxPercentage_in_range (tp fp : Q) :
  0 < fp -> 0 <= tp ->
  Defensive.calculateTariffTaxPercentage (num tp) (num fp) = num (tp / fp * 100).
Proof.
  intros Hfp Htp. unfold Defensive.calculateTariffTaxPercentage.
  js_guards; try lra. now rewrite js_div_num by lra.
Qed.

Lemma defensive_tariffTaxPercentage_out_of_range (tp fp : Q) :
  fp <= 0 \/ tp < 0 ->
  Defensive.calculateTariffTaxPercentage (num tp) (num fp) = num 0.
Proof.
  intro H. unfold Defensive.calculateTariffTaxPercentage.
  js_guards; try reflexivity. lra.
Qed.

Lemma defensive_inventoryImpact (months pi : Q) :
  0 <= pi ->
  exists c, c == clamp months 0 12
            /\ Defensive.calculateInventoryImpact (num months) (num pi)
               = num (pi * (1 - c / 12)).
Proof.
  intro Hpi. destruct (clamp_num 0 12 months) as (c & Hc & Ec).
  exists c. split; [exact Ec|].
  unfold Defensive.calculateInventoryImpact.
  js_guards; try lra. cbv zeta. rewrite Hc. now rewrite js_div_num by lra.
Qed.

(** ** Consumer pass-through *)

(** C6 (as the code has it).  For every [tariffAmount >= 0] and every
    rational rate, the validating copy of [calculateTariffPassed] returns
    [tariffAmount * (clamp(rate, 0, 100) / 100)]; the plain copy applies no
    clamp and returns that value for the rates within [0, 100].  At a rate
    of 100 both return [tariffAmount]. *)
Theorem tariffPassed_clamped (ta pt : Q) :
  0 <= ta ->
  Defensive.calculateTariffPassed (num ta) (num pt)
    =v= num (ta * (clamp pt 0 100 / 100))
  /\ (0 <= pt <= 100 ->
        Plain.calculateTariffPassed (num ta) (num pt)
          =v= num (ta * (clamp pt 0 100 / 100)))
  /\ (pt == 100 ->
        Defensive.calculateTariffPassed (num ta) (num pt) =v= num ta
        /\ Plain.calculateTariffPassed (num ta) (num pt) =v= num ta).
Proof.
  intro Hta.
  destruct (defensive_tariffPassed ta pt Hta) as (c & Ec & ->).
  rewrite plain_tariffPassed.
  split; [|split].
  - apply num_eq. now rewrite Ec.
  - intro Hpt. apply num_eq. now rewrite clamp_in_range.
  - intro E. split; apply num_eq.
    + rewrite Ec, clamp_in_range by lra. rewrite E. field.
    + rewrite E. field.
Qed.

Lemma tariffPassed_clamped_witness :
  Defensive.calculateTariffPassed (num 10) (num 150)
    =v= num (10 * (clamp 150 0 100 / 100))
  /\ Plain.calculateTariffPassed (num 10) (num 75)
       =v= num (10 * (clamp 75 0 100 / 100))
  /\ Defensive.calculateTariffPassed (num 10) (num 100) =v= num 10
  /\ Plain.calculateTariffPassed (num 10) (num 100) =v= num 10.
Proof.
  assert (P : 0 <= 10) by (unfold Qle; simpl; lia).
  split; [|split].
  - exact (proj1 (tariffPassed_clamped 10 150 P)).
  - apply (proj1 (proj2 (tariffPassed_clamped 10 75 P))).
    split; unfold Qle; simpl; lia.
  - apply (proj2 (proj2 (tariffPassed_clamped 10 100 P))). reflexivity.
Defined.

(** The plain copy at a rate of 150: one and a half times the tariff, where
    the clamp gives the tariff itself. *)
Lemma plain_tariffPassed_unclamped :
  Plain.calculateTariffPassed (num 10) (num 150) =v= num 15
  /\ ~ Plain.calculateTariffPassed (num 10) (num 150)
         =v= num (10 * (clamp 150 0 100 / 100)).
Proof.
  split.
  - reflexivity.
  - intro H. vm_compute in H. discriminate H.
Qed.

(** ** Inventory-adjusted impact *)

(** C7 (as the code has it).  For every [priceIncrease >= 0] and every
    rational number of months, the validating copy of
    [calculateInventoryImpact] returns
    [priceIncrease * (1 - clamp(months, 0, 12) / 12)]; the plain copy
    applies no clamp and returns that value for the months within [0, 12].
    In both, 0 months gives the full increase and 12 months gives 0. *)
Theorem inventoryImpact_clamped (months pi : Q) :
  0 <= pi ->
  Defensive.calculateInventoryImpact (num months) (num pi)
    =v= num (pi * (1 - clamp months 0 12 / 12))
  /\ (0 <= months <= 12 ->
        Plain.calculateInventoryImpact (num months) (num pi)
          =v= num (pi * (1 - clamp months 0 12 / 12)))
  /\ (months == 0 ->
        Defensive.calculateInventoryImpact (num months) (num pi) =v= num pi
        /\ Plain.calculateInventoryImpact (num months) (num pi) =v= num pi)
  /\ (months == 12 ->
        Defensive.calculateInventoryImpact (num months) (num pi) =v= num 0
        /\ Plain.calculateInventoryImpact (num months) (num pi) =v= num 0).
Proof.
  intro Hpi.
  destruct (defensive_inventoryImpact months pi Hpi) as (c & Ec & ->).
  rewrite plain_inventoryImpact.
  split; [|split; [|split]].
  - apply num_eq. now rewrite Ec.
  - intro Hm. apply num_eq. now rewrite clamp_in_range.
  - intro E. split; apply num_eq.
    + rewrite Ec, clamp_in_range by lra. rewrite E. field.
    + rewrite E. field.
  - intro E. split; apply num_eq.
    + rewrite Ec, clamp_in_range by lra. rewrite E. field.
    + rewrite E. field.
Qed.

Lemma inventoryImpact_clamped_witness :
  Defensive.calculateInventoryImpact (num 15) (num 10)
    =v= num (10 * (1 - clamp 15 0 12 / 12))
  /\ Plain.calculateInventoryImpact (num 3) (num 10)
       =v= num (10 * (1 - clamp 3 0 12 / 12))
  /\ (Defensive.calculateInventoryImpact (num 0) (num 10) =v= num 10
      /\ Plain.calculateInventoryImpact (num 0) (num 10) =v= num 10)
  /\ (Defensive.calculateInventoryImpact (num 12) (num 10) =v= num 0
      /\ Plain.calculateInventoryImpact (num 12) (num 10) =v= num 0).
Proof.
  assert (P : 0 <= 10) by (unfold Qle; simpl; lia).
  split; [|split; [|split]].
  - exact (proj1 (inventoryImpact_clamped 15 10 P)).
  - apply (proj1 (proj2 (inventoryImpact_clamped 3 10 P))).
    split; unfold Qle; simpl; lia.
  - apply (proj1 (proj2 (proj2 (inventoryImpact_clamped 0 10 P)))). reflexivity.
  - apply (proj2 (proj2 (proj2 (inventoryImpact_clamped 12 10 P)))). reflexivity.
Defined.

(** The plain copy at 15 months: a negative impact, where the clamp
    gives 0. *)
Lemma plain_inventoryImpact_unclamped :
  Plain.calculateInventoryImpact (num 15) (num 10) =v= num (-5 # 2)
  /\ ~ Plain.calculateInventoryImpact (num 15) (num 10)
         =v= num (10 * (1 - clamp 15 0 12 / 12)).
Proof.
  split.
  - reflexivity.
  - intro H. vm_compute in H. discriminate H.
Qed.

(** ** Effective tax rate *)

(** C8 (as the code has it).  The plain copy of
    [calculateTariffTaxPercentage] returns [tariffPassed / futurePrice * 100]
    when [futurePrice > 0] and 0 otherwise; the validating copy does so for
    [tariffPassed >= 0] and returns 0 for a negative [tariffPassed] as well.
    In both the division is only made by a positive [futurePrice]. *)
Theorem tariffTaxPercentage_guarded (tp fp : Q) :
  (0 < fp ->
     Plain.calculateTariffTaxPercentage (num tp) (num fp) = num (tp / fp * 100))
  /\ (fp <= 0 ->
        Plain.calculateTariffTaxPercentage (num tp) (num fp) = num 0)
  /\ (0 < fp -> 0 <= tp ->
        Defensive.calculateTariffTaxPercentage (num tp) (num fp)
        = num (tp / fp * 100))
  /\ (fp <= 0 \/ tp < 0 ->
        Defensive.calculateTariffTaxPercentage (num tp) (num fp) = num 0).
Proof.
  repeat match goal with |- _ /\ _ => split end.
  - apply plain_tariffTaxPercentage_pos.
  - apply plain_tariffTaxPercentage_nonpos.
  - apply defensive_tariffTaxPercentage_in_range.
  - apply defensive_tariffTaxPercentage_out_of_range.
Qed.

Lemma tariffTaxPercentage_guarded_witness :
  Plain.calculateTariffTaxPercentage (num (25 # 2)) (num (225 # 2))
  = num ((25 # 2) / (225 # 2) * 100)
  /\ Plain.calculateTariffTaxPercentage (num 5) (num 0) = num 0
  /\ Defensive.calculateTariffTaxPercentage (num (25 # 2)) (num (225 # 2))
     = num ((25 # 2) / (225 # 2) * 100)
  /\ Defensive.calculateTariffTaxPercentage (num (-5)) (num 10) = num 0.
Proof.
  split; [|split; [|split]].
  - destruct (tariffTaxPercentage_guarded (25 # 2) (225 # 2)) as (H & _).
    apply H. reflexivity.
  - destruct (tariffTaxPercentage_guarded 5 0) as (_ & H & _).
    apply H. unfold Qle; simpl; lia.
  - destruct (tariffTaxPercentage_guarded (25 # 2) (225 # 2)) as (_ & _ & H & _).
    apply H; [reflexivity | unfold Qle; simpl; lia].
  - destruct (tariffTaxPercentage_guarded (-5) 10) as (_ & _ & _ & H).
    apply H. right. reflexivity.
Defined.

(** The validating copy on a negative [tariffPassed] and a positive
    [futurePrice]: 0, where the quotient is -50. *)
Lemma defensive_tariffTaxPercentage_negative_passed :
  Defensive.calculateTariffTaxPercentage (num (-5)) (num 10) = num 0
  /\ Plain.calculateTariffTaxPercentage (num (-5)) (num 10) =v= num (-50)
  /\ ~ Defensive.calculateTariffTaxPercentage (num (-5)) (num 10)
         =v= num (-5 / 10 * 100).
Proof.
  split; [reflexivity | split; [reflexivity |]].
  intro H. vm_compute in H. discriminate H.
Qed.

(** ** The composed calculation *)

(** *** Binary64 arithmetic around zero *)

Lemma SFcompare_refl_finite (s : bool) (m : positive) (e : Z) :
  SFcompare (S754_finite s m e) (S754_finite s m e) = Some Eq.
Proof.
  simpl. rewrite Z.compare_refl.
  assert (P : Pos.compare_cont Eq m m = Eq) by apply Pos.compare_cont_refl.
  rewrite P. now destruct s.
Qed.

Lemma is_zero_spec (x : float) :
  PrimFloat.is_zero x = true <-> sf_zero (Prim2SF x).
Proof.
  unfold PrimFloat.is_zero. rewrite FloatAxioms.eqb_spec.
  change (Prim2SF PrimFloat.zero) with (S754_zero false).
  destruct (Prim2SF x) as [s|s| |s m e]; simpl; try (split; [discriminate | contradiction]).
  - split; auto.
  - destruct s; split; try discriminate; contradiction.
  - destruct s; split; try discriminate; contradiction.
Qed.

Lemma is_finite_spec (x : float) :
  PrimFloat.is_finite x = true <-> sf_finite (Prim2SF x).
Proof.
  unfold PrimFloat.is_finite, PrimFloat.is_nan, PrimFloat.is_infinity.
  rewrite !FloatAxioms.eqb_spec, FloatAxioms.abs_spec.
  change (Prim2SF PrimFloat.infinity) with (S754_infinity false).
  destruct (Prim2SF x) as [s|s| |s m e].
  - simpl. split; auto.
  - destruct s; simpl; split; try discriminate; contradiction.
  - simpl. split; try discriminate; contradiction.
  - unfold SFeqb. rewrite SFcompare_refl_finite. simpl. split; auto.
Qed.

Lemma ltb_zero_spec (x : float) :
  (0 <? x)%float = true <-> sf_positive (Prim2SF x).
Proof.
  rewrite FloatAxioms.ltb_spec. change (Prim2SF 0%float) with (S754_zero false).
  destruct (Prim2SF x) as [s|s| |s m e]; simpl;
    try destruct s; split; try discriminate; try contradiction; auto.
Qed.

Lemma mul_finite_zero (x z : float) :
  PrimFloat.is_finite x = true -> PrimFloat.is_zero z = true ->
  PrimFloat.is_zero (x * z) = true.
Proof.
  rewrite is_finite_spec, !is_zero_spec, FloatAxioms.mul_spec.
  unfold SF64mul.
  destruct (Prim2SF x), (Prim2SF z); simpl; intros; try contradiction; auto.
Qed.

Lemma mul_zero_finite (z y : float) :
  PrimFloat.is_zero z = true -> PrimFloat.is_finite y = true ->
  PrimFloat.is_zero (z * y) = true.
Proof.
  rewrite is_finite_spec, !is_zero_spec, FloatAxioms.mul_spec.
  unfold SF64mul.
  destruct (Prim2SF z), (Prim2SF y); simpl; intros; try contradiction; auto.
Qed.

Lemma div_zero_positive (z r : float) :
  PrimFloat.is_zero z = true -> (0 <? r)%float = true ->
  PrimFloat.is_zero (z / r) = true.
Proof.
  rewrite ltb_zero_spec, !is_zero_spec, FloatAxioms.div_spec.
  unfold SF64div.
  destruct (Prim2SF z), (Prim2SF r) as [sr|sr| |sr mr er]; simpl; intros;
    try contradiction; auto.
Qed.

Lemma add_positive_zero (r z : float) :
  (0 <? r)%float = true -> PrimFloat.is_zero z = true -> (r + z)%float = r.
Proof.
  rewrite ltb_zero_spec, is_zero_spec. intros Hr Hz.
  apply Prim2SF_inj. rewrite FloatAxioms.add_spec. unfold SF64add.
  destruct (Prim2SF r) as [sr|sr| |sr mr er], (Prim2SF z); simpl in *;
    try contradiction; try reflexivity; destruct sr; try contradiction;
    reflexivity.
Qed.

Lemma zero_not_negative (z : float) :
  PrimFloat.is_zero z = true -> (z <? 0)%float = false.
Proof.
  rewrite is_zero_spec, FloatAxioms.ltb_spec.
  change (Prim2SF 0%float) with (S754_zero false).
  destruct (Prim2SF z); simpl; try contradiction; reflexivity.
Qed.

Lemma positive_not_below_zero (r : float) :
  (0 <? r)%float = true -> (r <=? 0)%float = false /\ (r <? 0)%float = false.
Proof.
  rewrite ltb_zero_spec, FloatAxioms.leb_spec, FloatAxioms.ltb_spec.
  change (Prim2SF 0%float) with (S754_zero false).
  destruct (Prim2SF r) as [s|s| |s m e]; simpl; try contradiction;
    destruct s; try contradiction; auto.
Qed.

Lemma is_zero_finite (z : float) :
  PrimFloat.is_zero z = true -> PrimFloat.is_finite z = true.
Proof.
  rewrite is_zero_spec, is_finite_spec. destruct (Prim2SF z); simpl; auto.
Qed.

Lemma hundred_positive : (0 <? 100)%float = true.
Proof. reflexivity. Qed.

Lemma hundred_finite : PrimFloat.is_finite 100%float = true.
Proof. reflexivity. Qed.

Lemma zero_is_zero : PrimFloat.is_zero 0%float = true.
Proof. reflexivity. Qed.

Lemma zero_rate_fraction (t : float) :
  PrimFloat.is_zero t = true -> PrimFloat.is_zero (t / 100) = true.
Proof. intro H. apply div_zero_positive; [exact H | reflexivity]. Qed.

Lemma is_nan_spec (x : float) :
  PrimFloat.is_nan x = false <-> Prim2SF x <> S754_nan.
Proof.
  unfold PrimFloat.is_nan. rewrite FloatAxioms.eqb_spec.
  destruct (Prim2SF x) as [s|s| |s m e].
  - now destruct s.
  - now destruct s.
  - simpl. split; [discriminate | intro H; now contradiction H].
  - unfold SFeqb. rewrite SFcompare_refl_finite. simpl. split; [discriminate|reflexivity].
Qed.

Lemma finite_fraction_not_nan (x : float) :
  PrimFloat.is_finite (x / 100) = true -> PrimFloat.is_nan x = false.
Proof.
  rewrite is_finite_spec, is_nan_spec, FloatAxioms.div_spec.
  intros H E. rewrite E in H. exact H.
Qed.

(** The clamped rate is 0, 100 or the rate itself. *)
Lemma clamped_rate_fraction_finite (pt : float) :
  PrimFloat.is_finite (pt / 100) = true ->
  PrimFloat.is_finite (B64.fmax 0 (B64.fmin 100 pt) / 100) = true.
Proof.
  intro H. pose proof (finite_fraction_not_nan pt H) as N.
  assert (F : forall x : float, x = 100%float \/ x = pt ->
              PrimFloat.is_finite (B64.fmax 0 x / 100) = true).
  { intros x [-> | ->]; [reflexivity|].
    unfold B64.fmax. rewrite N.
    change (PrimFloat.is_nan 0) with false. cbn [orb].
    destruct (0 <? pt)%float; [exact H|].
    destruct (pt <? 0)%float; reflexivity. }
  apply F. unfold B64.fmin. rewrite N.
  change (PrimFloat.is_nan 100) with false. cbn [orb].
  destruct (100 <? pt)%float; [now left|].
  destruct (pt <? 100)%float; [now right|].
  change (B64.is_neg_zero 100) with false. now right.
Qed.

Section ZeroTariffBinary64.

Variables r m t pt months : float.
Hypothesis price_pos : (0 <? r)%float = true.
Hypothesis no_tariff : PrimFloat.is_zero t = true.

Lemma zero_tariff_tax (tp : float) :
  PrimFloat.is_zero tp = true -> PrimFloat.is_zero (tp / r * 100) = true.
Proof.
  intro H. apply mul_zero_finite; [|reflexivity].
  now apply div_zero_positive.
Qed.

Lemma zero_tariff_plain_binary64 :
  PrimFloat.is_finite (pt / 100) = true ->
  let res := B64.calculations B64.plain (B64.num r) (B64.num m) (B64.num t)
                              (B64.num pt) (B64.num months) in
  B64.is_finite (B64.importCost res) = true ->
  B64.is_zero (B64.tariffAmount res) = true
  /\ B64.is_zero (B64.tariffPassed res) = true
  /\ B64.futurePrice res = B64.num r
  /\ B64.is_zero (B64.tariffTaxPct res) = true.
Proof.
  intros Hq res Hic. subst res. revert Hic.
  unfold B64.calculations.
  cbn [B64.plain B64.calculateImportCost B64.calculateTariffAmount
       B64.calculateTariffPassed B64.calculateFuturePrice
       B64.calculateTariffTaxPercentage B64.calculateInventoryImpact
       B64.importCost B64.tariffAmount B64.tariffPassed B64.futurePrice
       B64.tariffTaxPct].
  unfold B64.Plain.calculateImportCost, B64.Plain.calculateTariffAmount,
    B64.Plain.calculateTariffPassed, B64.Plain.calculateFuturePrice,
    B64.Plain.calculateTariffTaxPercentage.
  unfold B64.js_gt, B64.js_mul, B64.js_div, B64.js_add, B64.num.
  cbn [B64.ToNumber B64.is_finite B64.is_zero].
  set (ic := (r / (1 + m / 100))%float). intro Hic.
  assert (A : PrimFloat.is_zero (ic * (t / 100)) = true).
  { apply mul_finite_zero; [exact Hic | now apply zero_rate_fraction]. }
  assert (P : PrimFloat.is_zero (ic * (t / 100) * (pt / 100)) = true).
  { now apply mul_zero_finite. }
  rewrite (add_positive_zero r _ price_pos P), price_pos.
  cbn [B64.is_zero].
  repeat split; try assumption. now apply zero_tariff_tax.
Qed.

Lemma defensive_importCost_binary64 :
  exists ic : float,
    B64.Defensive.calculateImportCost (B64.num r) (B64.num m) = B64.num ic.
Proof.
  unfold B64.Defensive.calculateImportCost.
  destruct (_ || _); [eexists; reflexivity|].
  destruct (B64.js_le _ _); eexists; reflexivity.
Qed.

Lemma defensive_tariffAmount_zero (ic : float) :
  PrimFloat.is_finite ic = true ->
  exists ta : float,
    B64.Defensive.calculateTariffAmount (B64.num ic) (B64.num t) = B64.num ta
    /\ PrimFloat.is_zero ta = true.
Proof.
  intro Hic. unfold B64.Defensive.calculateTariffAmount.
  destruct (_ || _).
  - exists 0%float. split; reflexivity.
  - eexists. split; [reflexivity|].
    apply mul_finite_zero; [exact Hic | now apply zero_rate_fraction].
Qed.

Lemma defensive_tariffPassed_zero (ta : float) :
  PrimFloat.is_zero ta = true ->
  PrimFloat.is_finite (B64.fmax 0 (B64.fmin 100 pt) / 100) = true ->
  exists tp : float,
    B64.Defensive.calculateTariffPassed (B64.num ta) (B64.num pt) = B64.num tp
    /\ PrimFloat.is_zero tp = true.
Proof.
  intros Hta Hq. unfold B64.Defensive.calculateTariffPassed.
  destruct (_ || _).
  - exists 0%float. split; reflexivity.
  - eexists. split; [reflexivity|]. now apply mul_zero_finite.
Qed.

Lemma defensive_futurePrice_zero (tp : float) :
  PrimFloat.is_zero tp = true ->
  B64.Defensive.calculateFuturePrice (B64.num r) (B64.num tp) = B64.num r.
Proof.
  intro H. unfold B64.Defensive.calculateFuturePrice, B64.js_lt, B64.num.
  cbn [B64.typeof_number B64.ToNumber negb orb].
  destruct (positive_not_below_zero r price_pos) as [_ ->].
  rewrite (zero_not_negative tp H). cbn [orb].
  unfold B64.js_add. cbn [B64.ToNumber]. now rewrite add_positive_zero.
Qed.

Lemma defensive_tax_zero (tp : float) :
  PrimFloat.is_zero tp = true ->
  B64.is_zero (B64.Defensive.calculateTariffTaxPercentage (B64.num tp) (B64.num r))
  = true.
Proof.
  intro H.
  unfold B64.Defensive.calculateTariffTaxPercentage, B64.js_lt, B64.js_le, B64.num.
  cbn [B64.typeof_number B64.ToNumber negb orb].
  destruct (positive_not_below_zero r price_pos) as [-> _].
  rewrite (zero_not_negative tp H). cbn [orb].
  unfold B64.js_mul, B64.js_div. cbn [B64.ToNumber B64.is_zero].
  now apply zero_tariff_tax.
Qed.

Lemma zero_tariff_defensive_binary64 :
  PrimFloat.is_finite (pt / 100) = true ->
  let res := B64.calculations B64.defensive (B64.num r) (B64.num m) (B64.num t)
                              (B64.num pt) (B64.num months) in
  B64.is_finite (B64.importCost res) = true ->
  B64.is_zero (B64.tariffAmount res) = true
  /\ B64.is_zero (B64.tariffPassed res) = true
  /\ B64.futurePrice res = B64.num r
  /\ B64.is_zero (B64.tariffTaxPct res) = true.
Proof.
  intros Hpt res Hic. subst res. revert Hic.
  pose proof (clamped_rate_fraction_finite pt Hpt) as Hq.
  unfold B64.calculations.
  cbn [B64.defensive B64.calculateImportCost B64.calculateTariffAmount
       B64.calculateTariffPassed B64.calculateFuturePrice
       B64.calculateTariffTaxPercentage B64.calculateInventoryImpact
       B64.importCost B64.tariffAmount B64.tariffPassed B64.futurePrice
       B64.tariffTaxPct].
  destruct defensive_importCost_binary64 as (ic & ->).
  cbn [B64.is_finite B64.num]. intro Hic.
  destruct (defensive_tariffAmount_zero ic Hic) as (ta & Eta & Zta).
  fold (B64.num ic). rewrite Eta.
  destruct (defensive_tariffPassed_zero ta Zta Hq) as (tp & Etp & Ztp).
  rewrite Etp, (defensive_futurePrice_zero tp Ztp).
  cbn [B64.is_zero B64.num].
  repeat split; try assumption. now apply defensive_tax_zero.
Qed.

End ZeroTariffBinary64.

(** C4 (as the code has it).  Zero-tariff identity, on binary64 numbers and
    over either copy of the functions: with [retailPrice > 0],
    [markupPercent > -100], a tariff rate of 0 and a pass-through rate whose
    hundredth is finite, and provided the import cost the division yields
    is finite, the composed calculation gives a tariff amount of 0, a
    tariff passed of 0, a future price equal to the retail price and a
    tariff share of 0. *)
Theorem zero_tariff_identity_binary64 (C : B64.Calculations)
    (r m t pt months : float) :
  C = B64.plain \/ C = B64.defensive ->
  (0 <? r)%float = true -> (-100 <? m)%float = true ->
  PrimFloat.is_zero t = true ->
  PrimFloat.is_finite (pt / 100) = true ->
  let res := B64.calculations C (B64.num r) (B64.num m) (B64.num t)
                              (B64.num pt) (B64.num months) in
  B64.is_finite (B64.importCost res) = true ->
  B64.is_zero (B64.tariffAmount res) = true
  /\ B64.is_zero (B64.tariffPassed res) = true
  /\ B64.futurePrice res = B64.num r
  /\ B64.is_zero (B64.tariffTaxPct res) = true.
Proof.
  intros [-> | ->] Hr Hm Ht Hq.
  - now apply zero_tariff_plain_binary64.
  - now apply zero_tariff_defensive_binary64.
Qed.

Lemma zero_tariff_identity_binary64_witness :
  let res := B64.calculations B64.plain (B64.num 100) (B64.num 50) (B64.num 0)
                              (B64.num 75) (B64.num 3) in
  let res' := B64.calculations B64.defensive (B64.num 100) (B64.num 50)
                               (B64.num 0) (B64.num 150) (B64.num 3) in
  (B64.is_zero (B64.tariffAmount res) = true
   /\ B64.is_zero (B64.tariffPassed res) = true
   /\ B64.futurePrice res = B64.num 100
   /\ B64.is_zero (B64.tariffTaxPct res) = true)
  /\ (B64.is_zero (B64.tariffAmount res') = true
      /\ B64.is_zero (B64.tariffPassed res') = true
      /\ B64.futurePrice res' = B64.num 100
      /\ B64.is_zero (B64.tariffTaxPct res') = true).
Proof.
  split.
  - apply (zero_tariff_identity_binary64 B64.plain 100 50 0 75 3);
      [left; reflexivity | reflexivity | reflexivity | reflexivity
      | reflexivity | reflexivity].
  - apply (zero_tariff_identity_binary64 B64.defensive 100 50 0 150 3);
      [right; reflexivity | reflexivity | reflexivity | reflexivity
      | reflexivity | reflexivity].
Defined.

(** Without the proviso the identity fails.  A retail price of 2^1023 and
    a markup of -75 are a valid input, and the import cost overflows to
    [Infinity]; with a tariff rate of 0 the tariff amount is
    [Infinity * 0], that is [NaN], and so are the tariff passed and the
    future price, in both copies. *)
Lemma zero_tariff_overflow :
  let res := B64.calculations B64.plain (B64.num 0x1p1023) (B64.num (-75))
                              (B64.num 0) (B64.num 75) (B64.num 3) in
  let res' := B64.calculations B64.defensive (B64.num 0x1p1023) (B64.num (-75))
                               (B64.num 0) (B64.num 75) (B64.num 3) in
  (0 <? 0x1p1023)%float = true /\ (-100 <? -75)%float = true
  /\ PrimFloat.is_zero 0 = true
  /\ B64.importCost res = B64.num infinity
  /\ B64.tariffAmount res = B64.num nan
  /\ B64.tariffPassed res = B64.num nan
  /\ B64.futurePrice res = B64.num nan
  /\ B64.is_zero (B64.tariffAmount res) = false
  /\ B64.importCost res' = B64.num infinity
  /\ B64.tariffAmount res' = B64.num nan
  /\ B64.tariffPassed res' = B64.num nan
  /\ B64.futurePrice res' = B64.num nan
  /\ B64.is_zero (B64.tariffAmount res') = false.
Proof. vm_compute. repeat split. Qed.

(** ** Agreement of the two copies *)

(** C10.  Inside the documented ranges ([retailPrice > 0],
    [markupPercent > -100], [importCost >= 0], [tariffRate >= 0],
    [tariffAmount >= 0], pass-through rate in [0, 100], [tariffPassed >= 0],
    [futurePrice > 0], inventory months in [0, 12], [priceIncrease >= 0])
    the plain and the validating copy of each of the six functions return
    equal values. *)
Theorem copies_agree_in_range
    (retailPrice markupPercent importCost tariffRate tariffAmount
     passThroughRate tariffPassed futurePrice inventoryMonths priceIncrease : Q) :
  0 < retailPrice -> -100 < markupPercent ->
  0 <= importCost -> 0 <= tariffRate ->
  0 <= tariffAmount -> 0 <= passThroughRate <= 100 ->
  0 <= tariffPassed -> 0 < futurePrice ->
  0 <= inventoryMonths <= 12 -> 0 <= priceIncrease ->
  Plain.calculateImportCost (num retailPrice) (num markupPercent)
    =v= Defensive.calculateImportCost (num retailPrice) (num markupPercent)
  /\ Plain.calculateTariffAmount (num importCost) (num tariffRate)
       =v= Defensive.calculateTariffAmount (num importCost) (num tariffRate)
  /\ Plain.calculateTariffPassed (num tariffAmount) (num passThroughRate)
       =v= Defensive.calculateTariffPassed (num tariffAmount) (num passThroughRate)
  /\ Plain.calculateFuturePrice (num retailPrice) (num tariffPassed)
       =v= Defensive.calculateFuturePrice (num retailPrice) (num tariffPassed)
  /\ Plain.calculateTariffTaxPercentage (num tariffPassed) (num futurePrice)
       =v= Defensive.calculateTariffTaxPercentage (num tariffPassed) (num futurePrice)
  /\ Plain.calculateInventoryImpact (num inventoryMonths) (num priceIncrease)
       =v= Defensive.calculateInventoryImpact (num inventoryMonths) (num priceIncrease).
Proof.
  intros Hr Hm Hic Htr Hta Hpt Htp Hfp Him Hpi.
  repeat match goal with |- _ /\ _ => split end.
  - rewrite plain_importCost_in_range, defensive_importCost_in_range
      by assumption. reflexivity.
  - rewrite plain_tariffAmount, defensive_tariffAmount by assumption.
    reflexivity.
  - destruct (defensive_tariffPassed tariffAmount passThroughRate Hta)
      as (c & Ec & ->).
    rewrite plain_tariffPassed. apply num_eq.
    rewrite Ec, clamp_in_range by exact Hpt. reflexivity.
  - rewrite plain_futurePrice, defensive_futurePrice by lra. reflexivity.
  - rewrite plain_tariffTaxPercentage_pos,
      defensive_tariffTaxPercentage_in_range by assumption. reflexivity.
  - destruct (defensive_inventoryImpact inventoryMonths priceIncrease Hpi)
      as (c & Ec & ->).
    rewrite plain_inventoryImpact. apply num_eq.
    rewrite Ec, clamp_in_range by exact Him. reflexivity.
Qed.

Lemma copies_agree_in_range_witness :
  Plain.calculateImportCost (num 100) (num 50)
    =v= Defensive.calculateImportCost (num 100) (num 50)
  /\ Plain.calculateTariffAmount (num (200 # 3)) (num 25)
       =v= Defensive.calculateTariffAmount (num (200 # 3)) (num 25)
  /\ Plain.calculateTariffPassed (num (50 # 3)) (num 75)
       =v= Defensive.calculateTariffPassed (num (50 # 3)) (num 75)
  /\ Plain.calculateFuturePrice (num 100) (num (25 # 2))
       =v= Defensive.calculateFuturePrice (num 100) (num (25 # 2))
  /\ Plain.calculateTariffTaxPercentage (num (25 # 2)) (num (225 # 2))
       =v= Defensive.calculateTariffTaxPercentage (num (25 # 2)) (num (225 # 2))
  /\ Plain.calculateInventoryImpact (num 3) (num (25 # 2))
       =v= Defensive.calculateInventoryImpact (num 3) (num (25 # 2)).
Proof.
  apply (copies_agree_in_range 100 50 (200 # 3) 25 (50 # 3) 75 (25 # 2)
                               (225 # 2) 3 (25 # 2));
    try reflexivity; try split; unfold Qle; simpl; lia.
Defined.

(** ** Worked scenarios *)

(** Retail price 100, markup 50, tariff 25, pass-through 75, three months of
    inventory. *)
Example scenario_full (C : Calculations) :
  C = plain \/ C = defensive ->
  let res := Calculator.calculations C (num 100) (num 50) (num 25) (num 75)
                                     (num 3) in
  importCost res =v= num (200 # 3)
  /\ tariffAmount res =v= num (50 # 3)
  /\ tariffPassed res =v= num (25 # 2)
  /\ futurePrice res =v= num (225 # 2)
  /\ tariffTaxPct res =v= num (100 # 9)
  /\ inventoryAdjustedIncrease res =v= num (75 # 8)
  /\ priceIncreasePercent res =v= num (25 # 2).
Proof.
  intros [-> | ->]; vm_compute; repeat split.
Qed.

(** No markup, full pass-through, no inventory. *)
Example scenario_full_passThrough (C : Calculations) :
  C = plain \/ C = defensive ->
  let res := Calculator.calculations C (num 100) (num 0) (num 10) (num 100)
                                     (num 0) in
  importCost res =v= num 100
  /\ tariffAmount res =v= num 10
  /\ tariffPassed res =v= num 10
  /\ futurePrice res =v= num 110
  /\ tariffTaxPct res =v= num (100 # 11)
  /\ inventoryAdjustedIncrease res =v= num 10.
Proof.
  intros [-> | ->]; vm_compute; repeat split.
Qed.

(** Elasticity pair [{demand: -2.0, supply: 1.5}]: a rate of 300/7, about
    42.857. *)
Example scenario_elasticity :
  Plain.calculatePassThrough (Some (local_product (num (-2)) (num (3 # 2))))
  = Returns (num ((3 # 2) / ((3 # 2) + Qabs (-2)) * 100))
  /\ (3 # 2) / ((3 # 2) + Qabs (-2)) * 100 == 300 # 7.
Proof. split; reflexivity. Qed.

(** A product of the API shape whose demand elasticity is 0: the field is
    falsy, so the memo falls through to the default. *)
Example calculatedPassThrough_api_zero_demand :
  Calculator.calculatedPassThrough (Some (api_product (num 0) (num 2))) = num 75.
Proof. reflexivity. Qed.

(* ================================================================== *)
(** * Further properties of the calculation functions *)

(** ** Pass-through derivation *)

(** The only way [calculatePassThrough] fails: the plain copy, on a product
    that has no [elasticity] field, with the runtime's [TypeError].  The
    validating copy never fails. *)
Theorem calculatePassThrough_failure (product : option Product) (e : error) :
  (Plain.calculatePassThrough product = Throws e
   <-> e = TypeError /\ exists p, product = Some p /\ elasticity p = None)
  /\ Defensive.calculatePassThrough product <> Throws e.
Proof.
  split.
  - split.
    + destruct product as [p|]; [|discriminate].
      unfold Plain.calculatePassThrough.
      destruct (elasticity p) as [pair|] eqn:E; [discriminate|].
      intro H. injection H as <-. split; [reflexivity|].
      exists p. now split.
    + intros (-> & p & -> & E). unfold Plain.calculatePassThrough.
      now rewrite E.
  - destruct product as [p|]; [|discriminate].
    unfold Defensive.calculatePassThrough.
    destruct (elasticity p) as [pair|]; [|discriminate].
    destruct (negb (typeof_number (demand pair))
              || negb (typeof_number (supply pair))); discriminate.
Qed.

Lemma calculatePassThrough_failure_witness :
  Plain.calculatePassThrough (Some bare_product) = Throws TypeError
  /\ Defensive.calculatePassThrough (Some bare_product) <> Throws TypeError.
Proof.
  destruct (calculatePassThrough_failure (Some bare_product) TypeError)
    as ([_ H] & G).
  split; [|exact G].
  apply H. split; [reflexivity|]. exists bare_product. split; reflexivity.
Defined.

(** With a supply elasticity that is not negative (and not both
    elasticities zero) the derived rate is within [0, 100], ends included:
    0 for a supply elasticity of 0, 100 for a demand elasticity of 0. *)
Theorem passThrough_within_0_100 (p : Product) (d s : Q) :
  0 <= s -> ~ s + Qabs d == 0 ->
  elasticity p = Some {| demand := num d; supply := num s |} ->
  exists x : Q,
    Plain.calculatePassThrough (Some p) = Returns (num x)
    /\ Defensive.calculatePassThrough (Some p) = Returns (num x)
    /\ 0 <= x <= 100
    /\ (s == 0 -> x == 0)
    /\ (d == 0 -> x == 100).
Proof.
  intros Hs N pair.
  pose proof (Qabs_nonneg d) as A.
  assert (P : 0 < s + Qabs d).
  { destruct (Qlt_le_dec 0 (s + Qabs d)) as [H|H]; [exact H|].
    exfalso. apply N. lra. }
  exists (s / (s + Qabs d) * 100).
  rewrite (plain_passThrough_pair p d s), (defensive_passThrough_pair p d s)
    by assumption.
  rewrite passThrough_formula by assumption.
  repeat match goal with |- _ /\ _ => split end; try reflexivity.
  - assert (0 <= s / (s + Qabs d)) by (apply Qle_shift_div_l; lra). lra.
  - assert (s / (s + Qabs d) <= 1) by (apply Qle_shift_div_r; lra). lra.
  - intro E. rewrite E. field. lra.
  - intro E. assert (Z : Qabs d == 0) by (rewrite E; reflexivity).
    rewrite Z. field. lra.
Qed.

Lemma passThrough_within_0_100_witness :
  exists x : Q,
    Plain.calculatePassThrough (Some (local_product (num 0) (num 2)))
    = Returns (num x)
    /\ Defensive.calculatePassThrough (Some (local_product (num 0) (num 2)))
       = Returns (num x)
    /\ 0 <= x <= 100
    /\ (2 == 0 -> x == 0)
    /\ (0 == 0 -> x == 100).
Proof.
  apply (passThrough_within_0_100 (local_product (num 0) (num 2)) 0 2).
  - unfold Qle; simpl; lia.
  - vm_compute. discriminate.
  - reflexivity.
Defined.

Lemma js_div_num_zero (x y : Q) :
  y == 0 ->
  js_div (num x) (num y)
  = VNum (if Qeq_bool x 0 then NaN else inf_of_sign (Qpositive x)).
Proof.
  intro H. apply Qeq_bool_iff in H.
  unfold js_div, num, ToNumber, ndiv. now rewrite H.
Qed.

Lemma passThrough_expression_sign (d s : Q) :
  js_mul (js_div (num s) (js_add (num s) (Math_abs (num d)))) (num 100)
  =v= js_mul (js_div (num s) (js_add (num s) (Math_abs (num (- d))))) (num 100).
Proof.
  rewrite !Math_abs_num, !js_add_num.
  assert (E : s + Qabs (- d) == s + Qabs d) by now rewrite Qabs_opp.
  destruct (Qeq_dec (s + Qabs d) 0) as [Z|N].
  - assert (Z' : s + Qabs (- d) == 0) by now rewrite E.
    rewrite !js_div_num_zero by assumption. reflexivity.
  - assert (N' : ~ s + Qabs (- d) == 0) by now rewrite E.
    rewrite !js_div_num, !js_mul_num by assumption.
    apply num_eq. now rewrite E.
Qed.

(** The sign given to the demand elasticity does not matter: [d] and [-d]
    derive the same rate, in both copies, whatever the two numbers. *)
Theorem passThrough_sign_of_demand (d s : Q) :
  exists v1 v2 : value,
    Plain.calculatePassThrough (Some (local_product (num d) (num s))) = Returns v1
    /\ Plain.calculatePassThrough (Some (local_product (num (- d)) (num s)))
       = Returns v2
    /\ Defensive.calculatePassThrough (Some (local_product (num d) (num s)))
       = Returns v1
    /\ Defensive.calculatePassThrough (Some (local_product (num (- d)) (num s)))
       = Returns v2
    /\ v1 =v= v2.
Proof.
  do 2 eexists.
  rewrite (plain_passThrough_pair _ d s), (plain_passThrough_pair _ (- d) s),
    (defensive_passThrough_pair _ d s), (defensive_passThrough_pair _ (- d) s)
    by reflexivity.
  repeat match goal with |- _ /\ _ => split end; try reflexivity.
  apply passThrough_expression_sign.
Qed.

(** ** The validating copy on any argument *)

Lemma finite_or_absent_cases (v : value) :
  finite_or_absent v ->
  (exists q, v = num q) \/ typeof_number v = false.
Proof.
  destruct v as [| |[q| | |]]; simpl; intro H; try contradiction;
    try (right; reflexivity).
  left. now exists q.
Qed.

Lemma js_or_zero_number (v : value) :
  finite_or_absent v -> is_a_number (js_or v (num 0)).
Proof.
  destruct v as [| |[q| | |]]; simpl; intro H; try contradiction; try exact I.
  unfold js_or; simpl. now destruct (Qeq_bool q 0).
Qed.

Lemma defensive_importCost_number (r m : Q) :
  is_a_number (Defensive.calculateImportCost (num r) (num m)).
Proof.
  destruct (Qlt_le_dec 0 r) as [Hr|Hr]; [destruct (Qlt_le_dec (-100) m) as [Hm|Hm]|].
  - now rewrite defensive_importCost_in_range.
  - now rewrite defensive_importCost_degenerate_markup.
  - now rewrite defensive_importCost_nonpositive_price.
Qed.

Lemma defensive_tariffAmount_out_of_range (ic t : Q) :
  ic < 0 \/ t < 0 -> Defensive.calculateTariffAmount (num ic) (num t) = num 0.
Proof.
  intro H. unfold Defensive.calculateTariffAmount.
  js_guards; try reflexivity. lra.
Qed.

Lemma defensive_tariffPassed_negative (ta pt : Q) :
  ta < 0 -> Defensive.calculateTariffPassed (num ta) (num pt) = num 0.
Proof.
  intro H. unfold Defensive.calculateTariffPassed.
  js_guards; try reflexivity. lra.
Qed.

Lemma defensive_futurePrice_out_of_range (r tp : Q) :
  r < 0 \/ tp < 0 ->
  Defensive.calculateFuturePrice (num r) (num tp) = js_or (num r) (num 0).
Proof.
  intro H. unfold Defensive.calculateFuturePrice.
  js_guards; try reflexivity. lra.
Qed.

Lemma defensive_inventoryImpact_negative (months pi : Q) :
  pi < 0 ->
  Defensive.calculateInventoryImpact (num months) (num pi) = js_or (num pi) (num 0).
Proof.
  intro H. unfold Defensive.calculateInventoryImpact.
  js_guards; try reflexivity. lra.
Qed.

Lemma js_or_num_zero (q : Q) : js_or (num q) (num 0) =v= num q.
Proof.
  unfold js_or, truthy, num.
  destruct (Qeq_bool q 0) eqn:E; simpl; [|reflexivity].
  apply Qeq_bool_iff in E. now symmetry.
Qed.

(** Whatever it is given, a rational or no number at all, each of the six
    functions of the validating copy answers a number: never [NaN], never
    [undefined]. *)
Theorem defensive_results_not_NaN (a b : value) :
  finite_or_absent a -> finite_or_absent b ->
  is_a_number (Defensive.calculateImportCost a b)
  /\ is_a_number (Defensive.calculateTariffAmount a b)
  /\ is_a_number (Defensive.calculateTariffPassed a b)
  /\ is_a_number (Defensive.calculateFuturePrice a b)
  /\ is_a_number (Defensive.calculateTariffTaxPercentage a b)
  /\ is_a_number (Defensive.calculateInventoryImpact a b).
Proof.
  intros Ha Hb.
  destruct (finite_or_absent_cases a Ha) as [[x ->]|Ta];
    [destruct (finite_or_absent_cases b Hb) as [[y ->]|Tb]|].
  - repeat match goal with |- _ /\ _ => split end.
    + apply defensive_importCost_number.
    + destruct (Qlt_le_dec x 0) as [H|H]; [|destruct (Qlt_le_dec y 0) as [G|G]].
      * now rewrite defensive_tariffAmount_out_of_range by (left; exact H).
      * now rewrite defensive_tariffAmount_out_of_range by (right; exact G).
      * now rewrite defensive_tariffAmount.
    + destruct (Qlt_le_dec x 0) as [H|H].
      * now rewrite defensive_tariffPassed_negative.
      * now destruct (defensive_tariffPassed x y H) as (c & _ & ->).
    + destruct (Qlt_le_dec x 0) as [H|H]; [|destruct (Qlt_le_dec y 0) as [G|G]].
      * rewrite defensive_futurePrice_out_of_range by (left; exact H).
        now apply js_or_zero_number.
      * rewrite defensive_futurePrice_out_of_range by (right; exact G).
        now apply js_or_zero_number.
      * now rewrite defensive_futurePrice.
    + destruct (Qlt_le_dec 0 y) as [H|H]; [destruct (Qlt_le_dec x 0) as [G|G]|].
      * now rewrite defensive_tariffTaxPercentage_out_of_range by (right; exact G).
      * now rewrite defensive_tariffTaxPercentage_in_range.
      * now rewrite defensive_tariffTaxPercentage_out_of_range by (left; exact H).
    + destruct (Qlt_le_dec y 0) as [H|H].
      * rewrite defensive_inventoryImpact_negative by exact H.
        now apply js_or_zero_number.
      * now destruct (defensive_inventoryImpact x y H) as (c & _ & ->).
  - unfold Defensive.calculateImportCost, Defensive.calculateTariffAmount,
      Defensive.calculateTariffPassed, Defensive.calculateFuturePrice,
      Defensive.calculateTariffTaxPercentage, Defensive.calculateInventoryImpact.
    rewrite Tb, typeof_number_num. cbn [negb orb].
    repeat split; try exact I; now apply js_or_zero_number.
  - unfold Defensive.calculateImportCost, Defensive.calculateTariffAmount,
      Defensive.calculateTariffPassed, Defensive.calculateFuturePrice,
      Defensive.calculateTariffTaxPercentage, Defensive.calculateInventoryImpact.
    rewrite Ta. cbn [negb orb].
    repeat split; try exact I; now apply js_or_zero_number.
Qed.

Lemma defensive_results_not_NaN_witness :
  is_a_number (Defensive.calculateImportCost VUndefined (num 50))
  /\ is_a_number (Defensive.calculateTariffAmount VUndefined (num 50))
  /\ is_a_number (Defensive.calculateTariffPassed VUndefined (num 50))
  /\ is_a_number (Defensive.calculateFuturePrice VUndefined (num 50))
  /\ is_a_number (Defensive.calculateTariffTaxPercentage VUndefined (num 50))
  /\ is_a_number (Defensive.calculateInventoryImpact VUndefined (num 50)).
Proof. apply (defensive_results_not_NaN VUndefined (num 50)); exact I. Defined.

(** ** Bounds kept by the validating copy *)

Lemma clamp_monotone (x y lo hi : Q) : x <= y -> clamp x lo hi <= clamp y lo hi.
Proof.
  intro H. unfold clamp.
  apply Q.max_le_compat_l. now apply Q.min_le_compat_l.
Qed.

Lemma clamp_compat (x y lo hi : Q) : x == y -> clamp x lo hi == clamp y lo hi.
Proof.
  intro H. apply Qle_antisym; apply clamp_monotone; rewrite H; apply Qle_refl.
Qed.

Lemma clamp_idempotent (x lo hi : Q) :
  lo <= hi -> clamp (clamp x lo hi) lo hi == clamp x lo hi.
Proof. intro H. apply clamp_in_range. now apply clamp_bounds. Qed.

Lemma Qmult_le_compat_l_nonneg (z x y : Q) : 0 <= z -> x <= y -> z * x <= z * y.
Proof.
  intros Hz H. rewrite (Qmult_comm z x), (Qmult_comm z y).
  now apply Qmult_le_compat_r.
Qed.

(** The tariff amount of the validating copy is never negative: it is
    [importCost * (tariffRate / 100)] when both are at least 0 and 0 as soon
    as one of them is negative. *)
Theorem defensive_tariffAmount_nonnegative (ic t : Q) :
  exists x : Q,
    Defensive.calculateTariffAmount (num ic) (num t) = num x
    /\ 0 <= x
    /\ (0 <= ic -> 0 <= t -> x == ic * (t / 100))
    /\ (ic < 0 \/ t < 0 -> x == 0).
Proof.
  destruct (Qlt_le_dec ic 0) as [H|H]; [|destruct (Qlt_le_dec t 0) as [G|G]].
  - exists 0. rewrite defensive_tariffAmount_out_of_range by (left; exact H).
    repeat split; try reflexivity; try lra.
  - exists 0. rewrite defensive_tariffAmount_out_of_range by (right; exact G).
    repeat split; try reflexivity; try lra.
  - exists (ic * (t / 100)). rewrite defensive_tariffAmount by assumption.
    repeat split; try reflexivity; try lra.
    apply Qmult_le_0_compat; [exact H|]. apply Qle_shift_div_l; lra.
Qed.

Lemma defensive_tariffAmount_nonnegative_witness :
  (exists x : Q,
     Defensive.calculateTariffAmount (num (-10)) (num 25) = num x
     /\ 0 <= x /\ x == 0)
  /\ (exists x : Q,
        Defensive.calculateTariffAmount (num 10) (num 25) = num x
        /\ 0 <= x /\ x == 10 * (25 / 100)).
Proof.
  split.
  - destruct (defensive_tariffAmount_nonnegative (-10) 25)
      as (x & H1 & H2 & _ & H4).
    exists x. split; [exact H1 | split; [exact H2|]].
    apply H4. left. reflexivity.
  - destruct (defensive_tariffAmount_nonnegative 10 25)
      as (x & H1 & H2 & H3 & _).
    exists x. split; [exact H1 | split; [exact H2|]].
    apply H3; unfold Qle; simpl; lia.
Defined.

(** What the validating copy passes to the consumer is never negative and
    never more than the tariff amount, whatever the rate; it does not fall
    when the rate rises. *)
Theorem defensive_tariffPassed_bounded (ta pt pt' : Q) :
  pt <= pt' ->
  exists x x' : Q,
    Defensive.calculateTariffPassed (num ta) (num pt) = num x
    /\ Defensive.calculateTariffPassed (num ta) (num pt') = num x'
    /\ 0 <= x /\ x <= x' /\ x' <= Qmax ta 0.
Proof.
  intro Hpt.
  destruct (Qlt_le_dec ta 0) as [H|H].
  - exists 0, 0. rewrite !defensive_tariffPassed_negative by exact H.
    repeat split; try reflexivity; try lra. apply Q.le_max_r.
  - destruct (defensive_tariffPassed ta pt H) as (c & Ec & ->).
    destruct (defensive_tariffPassed ta pt' H) as (c' & Ec' & ->).
    exists (ta * (c / 100)), (ta * (c' / 100)).
    assert (B : 0 <= c <= 100) by (rewrite Ec; apply clamp_bounds; lra).
    assert (B' : 0 <= c' <= 100) by (rewrite Ec'; apply clamp_bounds; lra).
    assert (M : c <= c') by (rewrite Ec, Ec'; now apply clamp_monotone).
    repeat split; try reflexivity.
    + apply Qmult_le_0_compat; [exact H|]. apply Qle_shift_div_l; lra.
    + apply Qmult_le_compat_l_nonneg; [exact H|].
      apply Qle_shift_div_l; [lra|].
      assert (E : c / 100 * 100 == c) by field. rewrite E. exact M.
    + rewrite Q.max_l by exact H.
      assert (L : ta * (c' / 100) <= ta * 1).
      { apply Qmult_le_compat_l_nonneg; [exact H|].
        apply Qle_shift_div_r; lra. }
      lra.
Qed.

Lemma defensive_tariffPassed_bounded_witness :
  exists x x' : Q,
    Defensive.calculateTariffPassed (num 10) (num 75) = num x
    /\ Defensive.calculateTariffPassed (num 10) (num 150) = num x'
    /\ 0 <= x /\ x <= x' /\ x' <= Qmax 10 0.
Proof.
  apply (defensive_tariffPassed_bounded 10 75 150). unfold Qle; simpl; lia.
Defined.

(** The future price of the validating copy is never below the retail
    price: a negative [tariffPassed] is not subtracted, and a negative
    retail price is handed back as it is.  The plain copy just adds. *)
Theorem defensive_futurePrice_floor (r tp : Q) :
  exists x : Q,
    Defensive.calculateFuturePrice (num r) (num tp) =v= num x
    /\ r <= x
    /\ (0 <= r -> x == r + Qmax tp 0)
    /\ (r < 0 -> x == r)
    /\ Plain.calculateFuturePrice (num r) (num tp) = num (r + tp).
Proof.
  destruct (Qlt_le_dec r 0) as [H|H]; [|destruct (Qlt_le_dec tp 0) as [G|G]].
  - exists r. rewrite defensive_futurePrice_out_of_range by (left; exact H).
    repeat split; try reflexivity; try lra. apply js_or_num_zero.
  - exists r. rewrite defensive_futurePrice_out_of_range by (right; exact G).
    repeat split; try reflexivity; try lra.
    + apply js_or_num_zero.
    + intros _. rewrite Q.max_r by lra. ring.
  - exists (r + tp). rewrite defensive_futurePrice by assumption.
    repeat split; try reflexivity; try lra.
    intros _. now rewrite Q.max_l.
Qed.

Lemma defensive_futurePrice_floor_witness :
  (exists x : Q,
     Defensive.calculateFuturePrice (num 100) (num (-5)) =v= num x
     /\ 100 <= x /\ x == 100 + Qmax (-5) 0)
  /\ (exists x : Q,
        Defensive.calculateFuturePrice (num (-100)) (num 5) =v= num x
        /\ x == -100).
Proof.
  split.
  - destruct (defensive_futurePrice_floor 100 (-5)) as (x & H1 & H2 & H3 & _).
    exists x. split; [exact H1 | split; [exact H2|]].
    apply H3. unfold Qle; simpl; lia.
  - destruct (defensive_futurePrice_floor (-100) 5) as (x & H1 & _ & _ & H4 & _).
    exists x. split; [exact H1|]. apply H4. reflexivity.
Defined.

(** For a price increase that is not negative, the initial impact of the
    validating copy stays between 0 and the full increase whatever the
    number of months, and does not rise when the buffer grows. *)
Theorem defensive_inventoryImpact_bounded (months months' pi : Q) :
  0 <= pi -> months <= months' ->
  exists x x' : Q,
    Defensive.calculateInventoryImpact (num months) (num pi) = num x
    /\ Defensive.calculateInventoryImpact (num months') (num pi) = num x'
    /\ 0 <= x' /\ x' <= x /\ x <= pi.
Proof.
  intros H Hm.
  destruct (defensive_inventoryImpact months pi H) as (c & Ec & ->).
  destruct (defensive_inventoryImpact months' pi H) as (c' & Ec' & ->).
  exists (pi * (1 - c / 12)), (pi * (1 - c' / 12)).
  assert (B : 0 <= c <= 12) by (rewrite Ec; apply clamp_bounds; lra).
  assert (B' : 0 <= c' <= 12) by (rewrite Ec'; apply clamp_bounds; lra).
  assert (M : c <= c') by (rewrite Ec, Ec'; now apply clamp_monotone).
  assert (D : c / 12 * 12 == c) by field.
  assert (D' : c' / 12 * 12 == c') by field.
  repeat split; try reflexivity.
  - apply Qmult_le_0_compat; [exact H|]. lra.
  - apply Qmult_le_compat_l_nonneg; [exact H|]. lra.
  - assert (L : pi * (1 - c / 12) <= pi * 1).
    { apply Qmult_le_compat_l_nonneg; [exact H|]. lra. }
    lra.
Qed.

Lemma defensive_inventoryImpact_bounded_witness :
  exists x x' : Q,
    Defensive.calculateInventoryImpact (num 3) (num 10) = num x
    /\ Defensive.calculateInventoryImpact (num 15) (num 10) = num x'
    /\ 0 <= x' /\ x' <= x /\ x <= 10.
Proof.
  apply (defensive_inventoryImpact_bounded 3 15 10); unfold Qle; simpl; lia.
Defined.

(** Clamping is idempotent in the code: handing the validating copy a rate,
    or a number of months, that was already clamped by the same expression
    changes nothing. *)
Theorem defensive_clamp_idempotent (ta pt months pi : Q) :
  Defensive.calculateTariffPassed
    (num ta) (Math_max (num 0) (Math_min (num 100) (num pt)))
  =v= Defensive.calculateTariffPassed (num ta) (num pt)
  /\ Defensive.calculateInventoryImpact
       (Math_max (num 0) (Math_min (num 12) (num months))) (num pi)
     =v= Defensive.calculateInventoryImpact (num months) (num pi).
Proof.
  split.
  - destruct (clamp_num 0 100 pt) as (c & -> & Ec).
    destruct (Qlt_le_dec ta 0) as [H|H].
    + rewrite !defensive_tariffPassed_negative by exact H. reflexivity.
    + destruct (defensive_tariffPassed ta c H) as (c1 & E1 & ->).
      destruct (defensive_tariffPassed ta pt H) as (c2 & E2 & ->).
      apply num_eq. rewrite E1, E2, (clamp_compat c _ 0 100 Ec).
      rewrite clamp_idempotent by lra. reflexivity.
  - destruct (clamp_num 0 12 months) as (c & -> & Ec).
    destruct (Qlt_le_dec pi 0) as [H|H].
    + rewrite !defensive_inventoryImpact_negative by exact H. reflexivity.
    + destruct (defensive_inventoryImpact c pi H) as (c1 & E1 & ->).
      destruct (defensive_inventoryImpact months pi H) as (c2 & E2 & ->).
      apply num_eq. rewrite E1, E2, (clamp_compat c _ 0 12 Ec).
      rewrite clamp_idempotent by lra. reflexivity.
Qed.

(** ** The composed calculation on valid inputs *)

Ltac unfold_calculations :=
  unfold Calculator.calculations;
  cbn [plain defensive
       calculateImportCost calculateTariffAmount calculateTariffPassed
       calculateFuturePrice calculateTariffTaxPercentage calculateInventoryImpact].

Section ValidInput.

Variables r m t pt months : Q.
Hypothesis price_pos : 0 < r.
Hypothesis markup_valid : -100 < m.
Hypothesis rate_nonneg : 0 <= t.

Let ic : Q := r / (1 + m / 100).
Let ta : Q := ic * (t / 100).

Lemma valid_importCost_pos : 0 < ic.
Proof.
  unfold ic. apply Qlt_shift_div_l.
  - now apply markup_divisor_pos.
  - lra.
Qed.

Lemma valid_tariffAmount_nonneg : 0 <= ta.
Proof.
  unfold ta. apply Qmult_le_0_compat.
  - apply Qlt_le_weak, valid_importCost_pos.
  - apply Qle_shift_div_l; lra.
Qed.

Lemma tariffPassed_nonneg (c : Q) : 0 <= c -> 0 <= ta * (c / 100).
Proof.
  intro H. apply Qmult_le_0_compat.
  - apply valid_tariffAmount_nonneg.
  - apply Qle_shift_div_l; lra.
Qed.

Lemma plain_calculations_closed_form :
  0 <= pt ->
  Calculator.calculations plain (num r) (num m) (num t) (num pt) (num months)
  = result_at r m t pt months.
Proof.
  intro Hpt. unfold_calculations.
  rewrite plain_importCost_in_range by exact markup_valid.
  rewrite plain_tariffAmount, plain_tariffPassed, plain_futurePrice,
    plain_inventoryImpact.
  fold ic. fold ta.
  pose proof (tariffPassed_nonneg pt Hpt) as P.
  rewrite plain_tariffTaxPercentage_pos by lra.
  rewrite js_div_num, js_mul_num by lra.
  reflexivity.
Qed.

Lemma defensive_calculations_closed_form :
  exists c k : Q,
    c == clamp pt 0 100 /\ k == clamp months 0 12
    /\ Calculator.calculations defensive (num r) (num m) (num t) (num pt)
                               (num months)
       = result_at r m t c k.
Proof.
  pose proof valid_importCost_pos as I.
  pose proof valid_tariffAmount_nonneg as A.
  destruct (defensive_tariffPassed ta pt A) as (c & Ec & Hc).
  assert (B : 0 <= c <= 100) by (rewrite Ec; apply clamp_bounds; lra).
  pose proof (tariffPassed_nonneg c (proj1 B)) as P.
  destruct (defensive_inventoryImpact months (ta * (c / 100)) P) as (k & Ek & Hk).
  exists c, k. split; [exact Ec | split; [exact Ek|]].
  unfold_calculations.
  rewrite defensive_importCost_in_range by assumption. fold ic.
  rewrite defensive_tariffAmount by (fold ic; lra). fold ta.
  rewrite Hc, Hk.
  rewrite defensive_futurePrice by lra.
  rewrite defensive_tariffTaxPercentage_in_range by lra.
  rewrite js_div_num, js_mul_num by lra.
  reflexivity.
Qed.

End ValidInput.

Lemma calculations_closed_form (C : Calculations) (r m t pt months : Q) :
  C = defensive \/ (C = plain /\ 0 <= pt <= 100 /\ 0 <= months <= 12) ->
  0 < r -> -100 < m -> 0 <= t ->
  exists c k : Q,
    c == clamp pt 0 100 /\ k == clamp months 0 12
    /\ Calculator.calculations C (num r) (num m) (num t) (num pt) (num months)
       = result_at r m t c k.
Proof.
  intros [-> | (-> & Hpt & Hm)] Hr Hmk Ht.
  - now apply defensive_calculations_closed_form.
  - exists pt, months. repeat split.
    + symmetry. now apply clamp_in_range.
    + symmetry. now apply clamp_in_range.
    + apply plain_calculations_closed_form; lra.
Qed.

(** Within the ranges the component's controls allow (markup at least 0,
    tariff rate and pass-through rate within [0, 100], months within
    [0, 12]) and with a retail price above 0, the composed calculation gives
    equal values in all seven fields of its result, whichever copy of the
    functions it is composed over. *)
Theorem calculations_copies_agree (r m t pt months : Q) :
  0 < r -> 0 <= m -> 0 <= t <= 100 -> 0 <= pt <= 100 -> 0 <= months <= 12 ->
  result_eq
    (Calculator.calculations plain (num r) (num m) (num t) (num pt) (num months))
    (Calculator.calculations defensive (num r) (num m) (num t) (num pt)
                             (num months)).
Proof.
  intros Hr Hm0 [Ht _] Hpt Hmo.
  assert (Hm : -100 < m) by lra.
  rewrite plain_calculations_closed_form by lra.
  destruct (defensive_calculations_closed_form r m t pt months Hr Hm Ht)
    as (c & k & Ec & Ek & ->).
  rewrite clamp_in_range in Ec by exact Hpt.
  rewrite clamp_in_range in Ek by exact Hmo.
  unfold result_eq, result_at.
  cbn [importCost tariffAmount tariffPassed futurePrice tariffTaxPct
       inventoryAdjustedIncrease priceIncreasePercent].
  repeat split; apply num_eq; rewrite ?Ec, ?Ek; reflexivity.
Qed.

Lemma calculations_copies_agree_witness :
  result_eq
    (Calculator.calculations plain (num 100) (num 50) (num 25) (num 75) (num 3))
    (Calculator.calculations defensive (num 100) (num 50) (num 25) (num 75)
                             (num 3)).
Proof.
  apply (calculations_copies_agree 100 50 25 75 3);
    try reflexivity; try split; unfold Qle; simpl; lia.
Defined.

Section ResultInvariants.

Variables r m t c k : Q.
Hypothesis price_pos : 0 < r.
Hypothesis markup_nonneg : 0 <= m.
Hypothesis rate_range : 0 <= t <= 100.
Hypothesis c_range : 0 <= c <= 100.
Hypothesis k_range : 0 <= k <= 12.

Let ic : Q := r / (1 + m / 100).
Let ta : Q := ic * (t / 100).
Let tp : Q := ta * (c / 100).

Lemma result_importCost_range : 0 < ic <= r.
Proof.
  assert (D : 0 < 1 + m / 100) by (apply markup_divisor_pos; lra).
  assert (M : 0 <= m / 100) by (apply Qle_shift_div_l; lra).
  split.
  - apply Qlt_shift_div_l; lra.
  - apply Qle_shift_div_r; [exact D|]. nra.
Qed.

Lemma result_tariffAmount_range : 0 <= ta <= ic.
Proof.
  destruct result_importCost_range as [I _].
  assert (F : 0 <= t / 100 <= 1).
  { split; [apply Qle_shift_div_l | apply Qle_shift_div_r]; lra. }
  unfold ta. split; nra.
Qed.

Lemma result_tariffPassed_range : 0 <= tp <= ta.
Proof.
  destruct result_tariffAmount_range as [A _].
  assert (F : 0 <= c / 100 <= 1).
  { split; [apply Qle_shift_div_l | apply Qle_shift_div_r]; lra. }
  unfold tp. split; nra.
Qed.

Lemma result_inventory_range : 0 <= tp * (1 - k / 12) <= tp.
Proof.
  destruct result_tariffPassed_range as [P _].
  assert (F : 0 <= k / 12 <= 1).
  { split; [apply Qle_shift_div_l | apply Qle_shift_div_r]; lra. }
  split; nra.
Qed.

Lemma result_taxPct_range : 0 <= tp / (r + tp) * 100 <= 100.
Proof.
  destruct result_tariffPassed_range as [P _].
  split.
  - assert (0 <= tp / (r + tp)) by (apply Qle_shift_div_l; lra). lra.
  - assert (tp / (r + tp) <= 1) by (apply Qle_shift_div_r; lra). lra.
Qed.

End ResultInvariants.

Lemma js_le_num (x y : Q) : x <= y -> js_le (num x) (num y) = true.
Proof. intro H. now destruct (js_leP x y). Qed.

(** Within the ranges the component's controls allow (markup at least 0,
    tariff rate within [0, 100]) and with a retail price above 0, the
    results are ordered as the model intends, in the comparison of the
    language itself:
    [0 <= inventoryAdjustedIncrease <= tariffPassed <= tariffAmount
       <= importCost <= retailPrice <= futurePrice];
    the future price is the retail price plus what is passed, and the
    tariff share of the future price is within [0, 100], the ends included.
    This holds over the validating copy for any rate and any number of
    months, over the plain copy for those within range. *)
Theorem calculations_invariants (C : Calculations) (r m t pt months : Q) :
  C = defensive \/ (C = plain /\ 0 <= pt <= 100 /\ 0 <= months <= 12) ->
  0 < r -> 0 <= m -> 0 <= t <= 100 ->
  let res := Calculator.calculations C (num r) (num m) (num t) (num pt)
                                     (num months) in
  js_le (num 0) (inventoryAdjustedIncrease res) = true
  /\ js_le (inventoryAdjustedIncrease res) (tariffPassed res) = true
  /\ js_le (tariffPassed res) (tariffAmount res) = true
  /\ js_le (tariffAmount res) (importCost res) = true
  /\ js_le (importCost res) (num r) = true
  /\ futurePrice res = js_add (num r) (tariffPassed res)
  /\ js_le (num r) (futurePrice res) = true
  /\ js_le (num 0) (tariffTaxPct res) = true
  /\ js_le (tariffTaxPct res) (num 100) = true.
Proof.
  intros HC Hr Hm0 Ht res. subst res.
  assert (Hm : -100 < m) by lra.
  destruct (calculations_closed_form C r m t pt months HC Hr Hm (proj1 Ht))
    as (c & k & Ec & Ek & ->).
  assert (Bc : 0 <= c <= 100) by (rewrite Ec; apply clamp_bounds; lra).
  assert (Bk : 0 <= k <= 12) by (rewrite Ek; apply clamp_bounds; lra).
  pose proof (result_importCost_range r m Hr Hm0) as [C1 C2].
  pose proof (result_tariffAmount_range r m t Hr Hm0 Ht) as [A1 A2].
  pose proof (result_tariffPassed_range r m t c Hr Hm0 Ht Bc) as [P1 P2].
  pose proof (result_inventory_range r m t c k Hr Hm0 Ht Bc Bk) as [I1 I2].
  pose proof (result_taxPct_range r m t c Hr Hm0 Ht Bc) as [T1 T2].
  unfold result_at.
  cbn [importCost tariffAmount tariffPassed futurePrice tariffTaxPct
       inventoryAdjustedIncrease].
  repeat match goal with |- _ /\ _ => split end;
    try reflexivity; apply js_le_num; try assumption.
  lra.
Qed.

Lemma calculations_invariants_witness :
  let res := Calculator.calculations defensive (num 100) (num 50) (num 25)
                                     (num 150) (num 15) in
  js_le (num 0) (inventoryAdjustedIncrease res) = true
  /\ js_le (inventoryAdjustedIncrease res) (tariffPassed res) = true
  /\ js_le (tariffPassed res) (tariffAmount res) = true
  /\ js_le (tariffAmount res) (importCost res) = true
  /\ js_le (importCost res) (num 100) = true
  /\ futurePrice res = js_add (num 100) (tariffPassed res)
  /\ js_le (num 100) (futurePrice res) = true
  /\ js_le (num 0) (tariffTaxPct res) = true
  /\ js_le (tariffTaxPct res) (num 100) = true.
Proof.
  apply (calculations_invariants defensive 100 50 25 150 15);
    [left; reflexivity | reflexivity | unfold Qle; simpl; lia
    | split; unfold Qle; simpl; lia].
Defined.

(** ** The composed calculation on any rationals *)

Lemma js_or_num_cases (q : Q) :
  js_or (num q) (num 0) = num q \/ (q == 0 /\ js_or (num q) (num 0) = num 0).
Proof.
  unfold js_or, truthy, num.
  destruct (Qeq_bool q 0) eqn:E; simpl; [right | left; reflexivity].
  apply Qeq_bool_iff in E. now split.
Qed.

Lemma defensive_importCost_num (r m : Q) :
  exists q, Defensive.calculateImportCost (num r) (num m) = num q
            /\ 0 <= q /\ (r <= 0 -> q == 0).
Proof.
  destruct (Qlt_le_dec 0 r) as [Hr|Hr]; [destruct (Qlt_le_dec (-100) m) as [Hm|Hm]|].
  - exists (r / (1 + m / 100)). rewrite defensive_importCost_in_range by assumption.
    repeat split; [|lra].
    apply Qlt_le_weak, Qlt_shift_div_l; [now apply markup_divisor_pos | lra].
  - exists 0. rewrite defensive_importCost_degenerate_markup by assumption.
    repeat split; lra.
  - exists 0. rewrite defensive_importCost_nonpositive_price by assumption.
    repeat split; lra.
Qed.

Lemma defensive_tariffAmount_num (ic t : Q) :
  exists q, Defensive.calculateTariffAmount (num ic) (num t) = num q
            /\ 0 <= q /\ (ic == 0 -> q == 0).
Proof.
  destruct (Qlt_le_dec ic 0) as [H|H]; [|destruct (Qlt_le_dec t 0) as [G|G]].
  - exists 0. rewrite defensive_tariffAmount_out_of_range by (left; exact H).
    repeat split; lra.
  - exists 0. rewrite defensive_tariffAmount_out_of_range by (right; exact G).
    repeat split; lra.
  - exists (ic * (t / 100)). rewrite defensive_tariffAmount by assumption.
    repeat split.
    + apply Qmult_le_0_compat; [exact H|]. apply Qle_shift_div_l; lra.
    + intro E. rewrite E. ring.
Qed.

Lemma defensive_tariffPassed_num (ta pt : Q) :
  exists q, Defensive.calculateTariffPassed (num ta) (num pt) = num q
            /\ 0 <= q /\ (ta == 0 -> q == 0).
Proof.
  destruct (Qlt_le_dec ta 0) as [H|H].
  - exists 0. rewrite defensive_tariffPassed_negative by exact H.
    repeat split; lra.
  - destruct (defensive_tariffPassed ta pt H) as (c & Ec & ->).
    assert (B : 0 <= c <= 100) by (rewrite Ec; apply clamp_bounds; lra).
    exists (ta * (c / 100)). repeat split.
    + apply Qmult_le_0_compat; [exact H|]. apply Qle_shift_div_l; lra.
    + intro E. rewrite E. ring.
Qed.

Lemma defensive_futurePrice_num (r tp : Q) :
  exists q, Defensive.calculateFuturePrice (num r) (num tp) = num q.
Proof.
  destruct (Qlt_le_dec r 0) as [H|H]; [|destruct (Qlt_le_dec tp 0) as [G|G]].
  - rewrite defensive_futurePrice_out_of_range by (left; exact H).
    destruct (js_or_num_cases r) as [-> | [_ ->]]; eexists; reflexivity.
  - rewrite defensive_futurePrice_out_of_range by (right; exact G).
    destruct (js_or_num_cases r) as [-> | [_ ->]]; eexists; reflexivity.
  - rewrite defensive_futurePrice by assumption. eexists; reflexivity.
Qed.

Lemma defensive_tariffTaxPercentage_num (tp fp : Q) :
  exists q, Defensive.calculateTariffTaxPercentage (num tp) (num fp) = num q.
Proof.
  destruct (Qlt_le_dec 0 fp) as [H|H]; [destruct (Qlt_le_dec tp 0) as [G|G]|].
  - rewrite defensive_tariffTaxPercentage_out_of_range by (right; exact G).
    eexists; reflexivity.
  - rewrite defensive_tariffTaxPercentage_in_range by assumption.
    eexists; reflexivity.
  - rewrite defensive_tariffTaxPercentage_out_of_range by (left; exact H).
    eexists; reflexivity.
Qed.

Lemma defensive_inventoryImpact_num (months pi : Q) :
  exists q, Defensive.calculateInventoryImpact (num months) (num pi) = num q.
Proof.
  destruct (Qlt_le_dec pi 0) as [H|H].
  - rewrite defensive_inventoryImpact_negative by exact H.
    destruct (js_or_num_cases pi) as [-> | [_ ->]]; eexists; reflexivity.
  - destruct (defensive_inventoryImpact months pi H) as (c & _ & ->).
    eexists; reflexivity.
Qed.

Lemma js_mul_NaN_l (v : value) : js_mul (VNum NaN) v = VNum NaN.
Proof. reflexivity. Qed.

Lemma js_div_NaN_l (v : value) : js_div (VNum NaN) v = VNum NaN.
Proof. reflexivity. Qed.

Lemma js_div_zero_zero (x y : Q) :
  x == 0 -> y == 0 -> js_div (num x) (num y) = VNum NaN.
Proof.
  intros Hx Hy. rewrite js_div_num_zero by exact Hy.
  apply Qeq_bool_iff in Hx. now rewrite Hx.
Qed.

(** With a price of 0 the import cost of the plain copy is 0, or [NaN] when
    the markup is -100 as well. *)
Lemma plain_importCost_price_zero (r m : Q) :
  r == 0 ->
  Plain.calculateImportCost (num r) (num m) = VNum NaN
  \/ exists q, Plain.calculateImportCost (num r) (num m) = num q /\ q == 0.
Proof.
  intro Hr. unfold Plain.calculateImportCost.
  rewrite (js_div_num m 100), js_add_num by lra.
  destruct (Qeq_dec (1 + m / 100) 0) as [E|N].
  - left. now apply js_div_zero_zero.
  - right. exists (r / (1 + m / 100)). split; [now apply js_div_num|].
    rewrite Hr. unfold Qdiv. apply Qmult_0_l.
Qed.

Lemma plain_share_of_zero (v : value) (y : Q) :
  (v = VNum NaN \/ exists q, v = num q /\ q == 0) ->
  js_mul v (js_div (num y) (num 100)) = VNum NaN
  \/ exists q, js_mul v (js_div (num y) (num 100)) = num q /\ q == 0.
Proof.
  rewrite (js_div_num y 100) by lra.
  intros [-> | (q & -> & Z)].
  - left. apply js_mul_NaN_l.
  - right. exists (q * (y / 100)). split; [apply js_mul_num|].
    rewrite Z. ring.
Qed.

Lemma percent_of_zero_price (v : value) (r : Q) :
  (v = VNum NaN \/ exists q, v = num q /\ q == 0) -> r == 0 ->
  js_mul (js_div v (num r)) (num 100) = VNum NaN.
Proof.
  intros [-> | (q & -> & Z)] Hr.
  - now rewrite js_div_NaN_l, js_mul_NaN_l.
  - now rewrite js_div_zero_zero, js_mul_NaN_l.
Qed.

(** A retail price of 0.  The price increase in percent, which the
    component divides by the retail price itself, is [NaN] over either
    copy of the functions, whatever the markup, the rates and the months.
    Over the validating copy the six fields the functions compute are
    all 0. *)
Theorem calculations_at_price_zero (C : Calculations) (r m t pt months : Q) :
  C = plain \/ C = defensive -> r == 0 ->
  let res := Calculator.calculations C (num r) (num m) (num t) (num pt)
                                     (num months) in
  let res' := Calculator.calculations defensive (num r) (num m) (num t) (num pt)
                                      (num months) in
  priceIncreasePercent res = VNum NaN
  /\ importCost res' =v= num 0 /\ tariffAmount res' =v= num 0
  /\ tariffPassed res' =v= num 0 /\ futurePrice res' =v= num 0
  /\ tariffTaxPct res' =v= num 0
  /\ inventoryAdjustedIncrease res' =v= num 0.
Proof.
  intros HC Hr; cbv zeta. split.
  - destruct HC as [-> | ->].
    + unfold Calculator.calculations.
      cbn [plain calculateImportCost calculateTariffAmount
           calculateTariffPassed priceIncreasePercent].
      apply percent_of_zero_price; [|exact Hr].
      unfold Plain.calculateTariffPassed, Plain.calculateTariffAmount.
      apply plain_share_of_zero, plain_share_of_zero.
      now apply plain_importCost_price_zero.
    + unfold Calculator.calculations.
      cbn [defensive calculateImportCost calculateTariffAmount
           calculateTariffPassed priceIncreasePercent].
      destruct (defensive_importCost_num r m) as (ic & -> & Pic & Zic).
      destruct (defensive_tariffAmount_num ic t) as (ta & -> & Pta & Zta).
      destruct (defensive_tariffPassed_num ta pt) as (tp & -> & Ptp & Ztp).
      assert (Z3 : tp == 0) by (apply Ztp, Zta, Zic; lra).
      now rewrite js_div_zero_zero, js_mul_NaN_l.
  - unfold_calculations.
    destruct (defensive_importCost_num r m) as (ic & -> & Pic & Zic).
    destruct (defensive_tariffAmount_num ic t) as (ta & -> & Pta & Zta).
    destruct (defensive_tariffPassed_num ta pt) as (tp & -> & Ptp & Ztp).
    assert (Z1 : ic == 0) by (apply Zic; lra).
    assert (Z2 : ta == 0) by (apply Zta, Z1).
    assert (Z3 : tp == 0) by (apply Ztp, Z2).
    rewrite defensive_futurePrice by lra.
    rewrite defensive_tariffTaxPercentage_out_of_range by (left; lra).
    destruct (defensive_inventoryImpact months tp Ptp) as (c & _ & ->).
    cbn [importCost tariffAmount tariffPassed futurePrice tariffTaxPct
         inventoryAdjustedIncrease].
    repeat split; apply num_eq; rewrite ?Z3; try lra; ring.
Qed.

Lemma calculations_at_price_zero_witness :
  let res := Calculator.calculations plain (num 0) (num (-100)) (num 25)
                                     (num 75) (num 3) in
  let res' := Calculator.calculations defensive (num 0) (num (-100)) (num 25)
                                      (num 75) (num 3) in
  priceIncreasePercent res = VNum NaN
  /\ importCost res' =v= num 0 /\ tariffAmount res' =v= num 0
  /\ tariffPassed res' =v= num 0 /\ futurePrice res' =v= num 0
  /\ tariffTaxPct res' =v= num 0
  /\ inventoryAdjustedIncrease res' =v= num 0.
Proof.
  apply (calculations_at_price_zero plain 0 (-100) 25 75 3);
    [left; reflexivity | reflexivity].
Defined.

Lemma Qpositive_true (q : Q) : 0 < q -> Qpositive q = true.
Proof.
  intro H. unfold Qpositive.
  destruct (Qcompare_spec q 0); [lra | lra | reflexivity].
Qed.

Lemma Qnonneg_true (q : Q) : 0 <= q -> Qnonneg q = true.
Proof.
  intro H. unfold Qnonneg.
  destruct (Qcompare_spec q 0); [reflexivity | lra | reflexivity].
Qed.

Lemma js_mul_PosInf_pos (q : Q) :
  0 < q -> js_mul (VNum PosInf) (num q) = VNum PosInf.
Proof.
  intro H. unfold js_mul, num, ToNumber, nmul.
  rewrite Qeq_bool_false by lra. now rewrite Qpositive_true.
Qed.

(** A markup of exactly -100 with a positive price, and a tariff rate and a
    pass-through rate of at least 1: the plain copy divides by zero, so its import cost, tariff amount,
    tariff passed, future price and price increase are [+Infinity] and its
    tariff share is [NaN]; the validating copy gives an import cost of 0
    and leaves the price where it was. *)
Theorem calculations_at_markup_minus_100 (r m t pt months : Q) :
  0 < r -> m == -100 -> 1 <= t -> 1 <= pt ->
  let res := Calculator.calculations plain (num r) (num m) (num t) (num pt)
                                     (num months) in
  let res' := Calculator.calculations defensive (num r) (num m) (num t) (num pt)
                                      (num months) in
  importCost res = VNum PosInf /\ tariffAmount res = VNum PosInf
  /\ tariffPassed res = VNum PosInf /\ futurePrice res = VNum PosInf
  /\ tariffTaxPct res = VNum NaN /\ priceIncreasePercent res = VNum PosInf
  /\ importCost res' = num 0 /\ tariffAmount res' =v= num 0
  /\ tariffPassed res' =v= num 0 /\ futurePrice res' =v= num r
  /\ tariffTaxPct res' =v= num 0.
Proof.
  intros Hr Hm Ht1 Hpt1. cbv zeta.
  assert (Ht : 0 < t) by lra.
  assert (Hpt : 0 < pt) by lra.
  assert (IC : Plain.calculateImportCost (num r) (num m) = VNum PosInf).
  { unfold Plain.calculateImportCost.
    rewrite (js_div_num m 100), js_add_num by lra.
    rewrite js_div_num_zero by (rewrite Hm; reflexivity).
    rewrite Qeq_bool_false by lra. now rewrite Qpositive_true. }
  assert (TA : Plain.calculateTariffAmount (VNum PosInf) (num t) = VNum PosInf).
  { unfold Plain.calculateTariffAmount. rewrite (js_div_num t 100) by lra.
    apply js_mul_PosInf_pos. apply Qlt_shift_div_l; lra. }
  assert (TP : Plain.calculateTariffPassed (VNum PosInf) (num pt) = VNum PosInf).
  { unfold Plain.calculateTariffPassed. rewrite (js_div_num pt 100) by lra.
    apply js_mul_PosInf_pos. apply Qlt_shift_div_l; lra. }
  assert (D : Defensive.calculateImportCost (num r) (num m) = num 0).
  { apply defensive_importCost_degenerate_markup. lra. }
  unfold_calculations.
  rewrite IC, TA, TP, D.
  cbn [importCost tariffAmount tariffPassed futurePrice tariffTaxPct
       priceIncreasePercent].
  rewrite defensive_tariffAmount by lra.
  destruct (defensive_tariffPassed (0 * (t / 100)) pt) as (c & Ec & ->);
    [lra|].
  assert (Z : 0 * (t / 100) * (c / 100) == 0) by ring.
  rewrite defensive_futurePrice by lra.
  rewrite defensive_tariffTaxPercentage_in_range by lra.
  assert (PI : js_mul (js_div (VNum PosInf) (num r)) (num 100) = VNum PosInf).
  { unfold js_div, js_mul, num, ToNumber, ndiv.
    now rewrite Qnonneg_true by lra. }
  rewrite PI.
  repeat match goal with |- _ /\ _ => split end; try reflexivity;
    apply num_eq; rewrite ?Z; first [ring | field; lra].
Qed.

Lemma calculations_at_markup_minus_100_witness :
  let res := Calculator.calculations plain (num 100) (num (-100)) (num 25)
                                     (num 75) (num 3) in
  let res' := Calculator.calculations defensive (num 100) (num (-100)) (num 25)
                                      (num 75) (num 3) in
  importCost res = VNum PosInf /\ tariffAmount res = VNum PosInf
  /\ tariffPassed res = VNum PosInf /\ futurePrice res = VNum PosInf
  /\ tariffTaxPct res = VNum NaN /\ priceIncreasePercent res = VNum PosInf
  /\ importCost res' = num 0 /\ tariffAmount res' =v= num 0
  /\ tariffPassed res' =v= num 0 /\ futurePrice res' =v= num 100
  /\ tariffTaxPct res' =v= num 0.
Proof.
  apply (calculations_at_markup_minus_100 100 (-100) 25 75 3);
    [reflexivity | reflexivity | unfold Qle; simpl; lia
    | unfold Qle; simpl; lia].
Defined.

(** ** Product selection *)

Lemma code_is_true (selectedProduct : string) (c : option string) :
  code_is selectedProduct c = true <-> c = Some selectedProduct.
Proof.
  destruct c as [s|]; simpl.
  - rewrite String.eqb_eq. split; [now intros -> | now intros [= ->]].
  - split; discriminate.
Qed.


(** The selection of the Calculator component: the product it finds is an
    entry of the list whose code (the API key first, the local key when
    that one is absent or empty) is the selected one; when no entry has
    that code nothing is selected and the calculated rate is the
    default 75. *)
Theorem selection_lookup (allProducts : list (option CatalogEntry))
    (selectedProduct : string) :
  (forall e, Selection.selectedProductData allProducts selectedProduct = Some e ->
     In (Some e) allProducts
     /\ code_or (hs_code e) (hsCode e) = Some selectedProduct)
  /\ ((forall e, In (Some e) allProducts ->
         code_or (hs_code e) (hsCode e) <> Some selectedProduct) ->
      Selection.selectedProductData allProducts selectedProduct = None
      /\ Calculator.calculatedPassThrough
           (option_map elasticities
              (Selection.selectedProductData allProducts selectedProduct))
         = num 75)
  /\ (Selection.selectedProductData allProducts selectedProduct = None ->
      forall e, In (Some e) allProducts ->
        code_or (hs_code e) (hsCode e) <> Some selectedProduct).
Proof.
  unfold Selection.selectedProductData.
  set (f := fun p : option CatalogEntry =>
              match p with
              | None => false
              | Some e => code_is selectedProduct (code_or (hs_code e) (hsCode e))
              end).
  split; [|split].
  - intros e H. destruct (find f allProducts) as [p|] eqn:F; [|discriminate].
    subst p. apply find_some in F. destruct F as [Hin Hf].
    split; [exact Hin|]. now apply code_is_true.
  - intro Hno.
    assert (F : find f allProducts = None).
    { destruct (find f allProducts) as [[e|]|] eqn:F; [| |reflexivity];
        apply find_some in F; destruct F as [Hin Hf]; simpl in Hf.
      - apply code_is_true in Hf. now apply Hno in Hin.
      - discriminate. }
    rewrite F. split; reflexivity.
  - intros H e Hin Hcode.
    destruct (find f allProducts) as [p|] eqn:F.
    + subst p. apply find_some in F. destruct F as [_ Hf]. discriminate.
    + apply (find_none f allProducts F) in Hin. simpl in Hin.
      apply code_is_true in Hcode. congruence.
Qed.

Lemma selection_lookup_witness :
  let e := {| hs_code := Some "854430"%string; hsCode := None;
              elasticities := api_product (num (-2)) (num (3 # 2)) |} in
  (In (Some e) [None; Some e]
   /\ code_or (hs_code e) (hsCode e) = Some "854430"%string)
  /\ (Selection.selectedProductData [None; Some e] "010121" = None
      /\ Calculator.calculatedPassThrough
           (option_map elasticities
              (Selection.selectedProductData [None; Some e] "010121"))
         = num 75).
Proof.
  intro e.
  destruct (selection_lookup [None; Some e] "854430") as (H1 & _).
  destruct (selection_lookup [None; Some e] "010121") as (_ & H2 & _).
  split.
  - apply H1. reflexivity.
  - apply H2. intros e' [H|[H|[]]]; [discriminate|].
    injection H as <-. discriminate.
Defined.

Lemma abs_self_difference (v : value) :
  js_gt (Math_abs (js_sub v v)) (num (1 # 2)) = false.
Proof.
  unfold js_gt, Math_abs, js_sub, nsub, ngt.
  destruct (ToNumber v) as [q| | |]; try reflexivity.
  cbn [ToNumber num nneg nadd nabs ncompare].
  assert (Z : Qabs (q + - q) == 0).
  { assert (E : q + - q == 0) by ring. rewrite E. reflexivity. }
  destruct (Qcompare_spec (Qabs (q + - q)) (1 # 2)); try reflexivity.
  lra.
Qed.

(** The notice that the custom rate differs from the calculated one: it is
    never shown without a selected product, whatever the custom rate; it is
    never shown once the custom
    rate has been set to the calculated one (be that value [NaN] or an
    infinity), and for rational rates it is shown exactly when they are
    more than half a point apart. *)
Theorem passThroughDiffers_spec (selectedProductData : option Product) :
  (forall customPassThrough : value,
     Selection.passThroughDiffers None customPassThrough = false)
  /\ Selection.passThroughDiffers selectedProductData
       (Calculator.calculatedPassThrough selectedProductData) = false
  /\ (forall (p : Product) (c x : Q),
        selectedProductData = Some p ->
        Calculator.calculatedPassThrough selectedProductData = num x ->
        (Selection.passThroughDiffers selectedProductData (num c) = true
         <-> 1 # 2 < Qabs (c - x))).
Proof.
  split; [intro customPassThrough; reflexivity | split].
  - destruct selectedProductData as [p|]; [|reflexivity].
    unfold Selection.passThroughDiffers. apply abs_self_difference.
  - intros p c x -> Hx. unfold Selection.passThroughDiffers.
    rewrite Hx, js_sub_num, Math_abs_num.
    destruct (js_gtP (Qabs (c - x)) (1 # 2)); split; intro H;
      try reflexivity; try assumption; try discriminate; contradiction.
Qed.

Lemma passThroughDiffers_spec_witness :
  let p := local_product (num (-3)) (num 2) in
  Selection.passThroughDiffers (Some p) (num 75) = true.
Proof.
  intro p.
  destruct (passThroughDiffers_spec (Some p)) as (_ & _ & H).
  apply (H p 75 (2 / (2 + Qabs (-3)) * 100) eq_refl eq_refl).
  reflexivity.
Defined.
